(** * Lead pipeline of scraper-service/execution: a shallow embedding

    The development follows [gmaps_lead_pipeline.py] and the two
    collaborators it imports, [scrape_google_maps.py] and
    [extract_website_contacts.py].

    Python text is modelled as [string]: a sequence of characters below
    256, with case mapping and character classes defined on the ASCII
    range (bytes from 128 on are fixed by [lower]/[upper] and are neither
    alphabetic nor white space).  On ASCII text [str.encode()] is the
    identity on bytes. *)

From Stdlib Require Import ZArith List Bool Ascii String Permutation Lia.
From Stdlib Require Import Floats Uint63.
From stdpp Require Import gmap strings list.

Import ListNotations.
Set Warnings "-register-all".
Local Open Scope string_scope.
Local Open Scope Z_scope.

(* ===================================================================== *)
(** ** Characters and the [str] methods the pipeline calls               *)
(* ===================================================================== *)

Definition code (c : ascii) : Z := Z.of_N (N_of_ascii c).

Definition chr (z : Z) : ascii := ascii_of_N (Z.to_N z).

Definition is_upper_c (c : ascii) : bool := (65 <=? code c) && (code c <=? 90).

Definition is_lower_c (c : ascii) : bool := (97 <=? code c) && (code c <=? 122).

Definition is_alpha_c (c : ascii) : bool := is_upper_c c || is_lower_c c.

(** Characters removed by [str.strip()]: TAB, LF, VT, FF, CR, the four
    separators FS..US and the space. *)
Definition is_space_c (c : ascii) : bool :=
  ((9 <=? code c) && (code c <=? 13)) || ((28 <=? code c) && (code c <=? 32)).

Definition lower_c (c : ascii) : ascii := if is_upper_c c then chr (code c + 32) else c.

Definition upper_c (c : ascii) : ascii := if is_lower_c c then chr (code c - 32) else c.

Fixpoint smap (f : ascii -> ascii) (s : string) : string :=
  match s with
  | EmptyString => EmptyString
  | String c r => String (f c) (smap f r)
  end.

(** [s.lower()] and [s.upper()] *)
Definition lower (s : string) : string := smap lower_c s.

Definition upper (s : string) : string := smap upper_c s.

Fixpoint sall (p : ascii -> bool) (s : string) : bool :=
  match s with
  | EmptyString => true
  | String c r => p c && sall p r
  end.

(** [s.isalpha()]: false on the empty string. *)
Definition isalpha (s : string) : bool :=
  match s with
  | EmptyString => false
  | _ => sall is_alpha_c s
  end.

(** [s.title()]: a letter is upper-cased when the character before it is
    not a letter, lower-cased otherwise. *)
Fixpoint title_from (prev_cased : bool) (s : string) : string :=
  match s with
  | EmptyString => EmptyString
  | String c r =>
      String (if is_alpha_c c then (if prev_cased then lower_c c else upper_c c) else c)
             (title_from (is_alpha_c c) r)
  end.

Definition title (s : string) : string := title_from false s.

Fixpoint lstrip (s : string) : string :=
  match s with
  | String c r => if is_space_c c then lstrip r else s
  | EmptyString => EmptyString
  end.

Fixpoint rstrip (s : string) : string :=
  match s with
  | EmptyString => EmptyString
  | String c r =>
      match rstrip r with
      | EmptyString => if is_space_c c then EmptyString else String c EmptyString
      | r' => String c r'
      end
  end.

(** [s.strip()] *)
Definition strip (s : string) : string := rstrip (lstrip s).

(** Splitting at every character that satisfies [sep]; the result is
    never empty and keeps empty segments, as [str.split(c)] and
    [re.split] with a character class do. *)
Fixpoint split_on (sep : ascii -> bool) (s : string) : list string :=
  match s with
  | EmptyString => [EmptyString]
  | String c r =>
      if sep c then EmptyString :: split_on sep r
      else match split_on sep r with
           | [] => [String c EmptyString]
           | seg :: segs => String c seg :: segs
           end
  end.

(** [s.split(c)] for a one-character separator *)
Definition split_char (c : ascii) (s : string) : list string :=
  split_on (Ascii.eqb c) s.

(** [sep.join(parts)] *)
Fixpoint join (sep : string) (parts : list string) : string :=
  match parts with
  | [] => ""
  | [p] => p
  | p :: rest => p ++ sep ++ join sep rest
  end.

(** [sub in s] on strings *)
Fixpoint contains (sub s : string) : bool :=
  String.prefix sub s ||
  match s with
  | EmptyString => false
  | String _ r => contains sub r
  end.

Definition str_eqb (a b : string) : bool := String.eqb a b.

(* ===================================================================== *)
(** ** hashlib.md5 (RFC 1321) on 32-bit words                            *)
(* ===================================================================== *)

Definition w32 (x : Z) : Z := x mod 4294967296.

Definition rotl32 (x n : Z) : Z :=
  w32 (Z.lor (Z.shiftl x n) (Z.shiftr (w32 x) (32 - n))).

Definition not32 (x : Z) : Z := 4294967295 - w32 x.

Definition md5_K : list Z :=
  [ 3614090360; 3905402710; 606105819; 3250441966;
    4118548399; 1200080426; 2821735955; 4249261313;
    1770035416; 2336552879; 4294925233; 2304563134;
    1804603682; 4254626195; 2792965006; 1236535329;
    4129170786; 3225465664; 643717713; 3921069994;
    3593408605; 38016083; 3634488961; 3889429448;
    568446438; 3275163606; 4107603335; 1163531501;
    2850285829; 4243563512; 1735328473; 2368359562;
    4294588738; 2272392833; 1839030562; 4259657740;
    2763975236; 1272893353; 4139469664; 3200236656;
    681279174; 3936430074; 3572445317; 76029189;
    3654602809; 3873151461; 530742520; 3299628645;
    4096336452; 1126891415; 2878612391; 4237533241;
    1700485571; 2399980690; 4293915773; 2240044497;
    1873313359; 4264355552; 2734768916; 1309151649;
    4149444226; 3174756917; 718787259; 3951481745 ].

Definition md5_S : list Z :=
  [ 7; 12; 17; 22; 7; 12; 17; 22; 7; 12; 17; 22; 7; 12; 17; 22;
    5; 9; 14; 20; 5; 9; 14; 20; 5; 9; 14; 20; 5; 9; 14; 20;
    4; 11; 16; 23; 4; 11; 16; 23; 4; 11; 16; 23; 4; 11; 16; 23;
    6; 10; 15; 21; 6; 10; 15; 21; 6; 10; 15; 21; 6; 10; 15; 21 ].

Record md5_state := MD5 { md5_a : Z; md5_b : Z; md5_c : Z; md5_d : Z }.

Definition md5_init : md5_state := MD5 1732584193 4023233417 2562383102 271733878.

Definition md5_round (M : list Z) (st : md5_state) (i : nat) : md5_state :=
  let '(MD5 a b c d) := st in
  let iz := Z.of_nat i in
  let '(f, g) :=
    if iz <? 16 then (Z.lor (Z.land b c) (Z.land (not32 b) d), iz)
    else if iz <? 32 then (Z.lor (Z.land d b) (Z.land (not32 d) c), (5 * iz + 1) mod 16)
    else if iz <? 48 then (Z.lxor b (Z.lxor c d), (3 * iz + 5) mod 16)
    else (Z.lxor c (Z.lor b (not32 d)), (7 * iz) mod 16) in
  let f' := w32 (f + a + nth i md5_K 0 + nth (Z.to_nat g) M 0) in
  MD5 d (w32 (b + rotl32 f' (nth i md5_S 0))) b c.

Definition md5_block (st : md5_state) (M : list Z) : md5_state :=
  let '(MD5 a b c d) := fold_left (md5_round M) (seq 0 64) st in
  MD5 (w32 (md5_a st + a)) (w32 (md5_b st + b)) (w32 (md5_c st + c)) (w32 (md5_d st + d)).

(** Little-endian bytes of a number, [n] of them. *)
Fixpoint le_bytes (n : nat) (x : Z) : list Z :=
  match n with
  | O => []
  | S k => x mod 256 :: le_bytes k (x / 256)
  end.

Fixpoint le_word (bs : list Z) : Z :=
  match bs with
  | [] => 0
  | b :: r => b + 256 * le_word r
  end.

Definition md5_pad (msg : list Z) : list Z :=
  let len := Z.of_nat (List.length msg) in
  let zeros := Z.to_nat ((55 - len) mod 64) in
  msg ++ [128] ++ repeat 0 zeros ++ le_bytes 8 ((8 * len) mod 18446744073709551616).

(** The words of a padded message, sixteen per block. *)
Fixpoint words_of (fuel : nat) (bs : list Z) : list Z :=
  match fuel, bs with
  | S k, _ :: _ => le_word (firstn 4 bs) :: words_of k (skipn 4 bs)
  | _, _ => []
  end.

Fixpoint blocks_of (fuel : nat) (ws : list Z) : list (list Z) :=
  match fuel, ws with
  | S k, _ :: _ => firstn 16 ws :: blocks_of k (skipn 16 ws)
  | _, _ => []
  end.

Definition md5_digest (msg : list Z) : list Z :=
  let padded := md5_pad msg in
  let ws := words_of (List.length padded) padded in
  let '(MD5 a b c d) := fold_left md5_block (blocks_of (List.length ws) ws) md5_init in
  le_bytes 4 a ++ le_bytes 4 b ++ le_bytes 4 c ++ le_bytes 4 d.

Definition hex_digit (z : Z) : ascii :=
  if z <? 10 then chr (48 + z) else chr (87 + z).

Fixpoint hex_of_bytes (bs : list Z) : string :=
  match bs with
  | [] => ""
  | b :: r => String (hex_digit (b / 16)) (String (hex_digit (b mod 16)) (hex_of_bytes r))
  end.

(** [s.encode()] *)
Fixpoint encode (s : string) : list Z :=
  match s with
  | EmptyString => []
  | String c r => code c :: encode r
  end.

(** [hashlib.md5(bs).hexdigest()] *)
Definition md5_hexdigest (bs : list Z) : string := hex_of_bytes (md5_digest bs).

(* ===================================================================== *)
(** ** Python values, exceptions, dictionaries                           *)
(* ===================================================================== *)

(** The values that cross the collaborator boundaries are JSON values.
    A float is carried as its 64-bit IEEE pattern; a dictionary keeps its
    insertion order. *)
Inductive pyval : Type :=
| PyNone
| PyBool (b : bool)
| PyInt (n : Z)
| PyFloat (bits : Z)
| PyStr (s : string)
| PyList (xs : list pyval)
| PyDict (kvs : list (string * pyval)).

Definition dict : Type := list (string * pyval).

(** Exceptions derived from [Exception], the class the handlers of the
    pipeline catch. *)
Inductive exn : Type :=
| ValueError (msg : string)
| KeyError (key : string)
| TypeError
| AttributeError
| NameError (name : string)
| OtherError (msg : string).

Inductive result (A : Type) : Type :=
| Ret (a : A)
| Raise (e : exn).

Arguments Ret {A} a.
Arguments Raise {A} e.

(** Truth value of an object, as [if x], [not x] and [x or y] test it. *)
Definition truthy (v : pyval) : bool :=
  match v with
  | PyNone => false
  | PyBool b => b
  | PyInt n => negb (n =? 0)
  | PyFloat bits => negb (bits mod 9223372036854775808 =? 0)
  | PyStr s => negb (str_eqb s "")
  | PyList xs => match xs with [] => false | _ => true end
  | PyDict kvs => match kvs with [] => false | _ => true end
  end.

(** [x or y] *)
Definition py_or (x y : pyval) : pyval := if truthy x then x else y.

Fixpoint dict_get (d : dict) (k : string) : option pyval :=
  match d with
  | [] => None
  | (k', v) :: r => if str_eqb k k' then Some v else dict_get r k
  end.

(** [d[k] = v]: an existing key keeps its place. *)
Fixpoint dict_set (d : dict) (k : string) (v : pyval) : dict :=
  match d with
  | [] => [(k, v)]
  | (k', v') :: r => if str_eqb k k' then (k', v) :: r else (k', v') :: dict_set r k v
  end.

(** [d.get(k, default)] on a dictionary *)
Definition dict_get_default (d : dict) (k : string) (default : pyval) : pyval :=
  match dict_get d k with
  | Some v => v
  | None => default
  end.

(** [x.get(k, default)] on an arbitrary object: only a dictionary has the
    method. *)
Definition py_get (x : pyval) (k : string) (default : pyval) : result pyval :=
  match x with
  | PyDict kvs => Ret (dict_get_default kvs k default)
  | _ => Raise AttributeError
  end.

Fixpoint all_strs (xs : list pyval) : option (list string) :=
  match xs with
  | [] => Some []
  | PyStr s :: r => match all_strs r with Some l => Some (s :: l) | None => None end
  | _ :: _ => None
  end.

Fixpoint chars_of (s : string) : list string :=
  match s with
  | EmptyString => []
  | String c r => String c EmptyString :: chars_of r
  end.

(** [sep.join(x)]: [x] is iterated (a list by its items, a string by its
    characters, a dictionary by its keys) and every item must be a
    string. *)
Definition py_join (sep : string) (x : pyval) : result string :=
  match x with
  | PyList xs =>
      match all_strs xs with
      | Some l => Ret (join sep l)
      | None => Raise TypeError
      end
  | PyStr s => Ret (join sep (chars_of s))
  | PyDict kvs => Ret (join sep (map fst kvs))
  | _ => Raise TypeError
  end.

(** A text field of a provider record: [None] or a [str]. *)
Definition of_text (t : option string) : pyval :=
  match t with
  | None => PyNone
  | Some s => PyStr s
  end.

(** [str(t)] and the formatting of [t] inside an f-string *)
Definition text_str (t : option string) : string :=
  match t with
  | None => "None"
  | Some s => s
  end.

Definition text_truthy (t : option string) : bool := truthy (of_text t).

(* ===================================================================== *)
(** ** get_lead_id                                                       *)
(* ===================================================================== *)

Definition get_lead_id (name address : option string) : string :=
  let raw := text_str name ++ "|" ++ text_str address in
  md5_hexdigest (encode raw).

(* ===================================================================== *)
(** ** infer_name_from_email                                             *)
(* ===================================================================== *)

Definition GENERIC_EMAIL_PREFIXES : gset string :=
  list_to_set
    [ "info"; "contact"; "hello"; "admin"; "sales"; "support"; "help";
      "office"; "team"; "billing"; "marketing"; "service"; "general";
      "enquiries"; "enquiry"; "mail"; "email"; "web"; "noreply"; "no-reply" ].

(** The names bound at module level of [gmaps_lead_pipeline.py] by its
    import statements (lines 1-23), and the names it defines. *)
Definition module_imports : list string :=
  [ "os"; "argparse"; "sys"; "hashlib"; "json"; "gspread"; "csv"; "queue";
    "httpx"; "datetime"; "ThreadPoolExecutor"; "as_completed"; "load_dotenv";
    "scrape_google_maps"; "extract_contacts" ].

Definition module_globals : list string :=
  module_imports ++
  [ "GENERIC_EMAIL_PREFIXES"; "infer_name_from_email"; "ProgressReporter";
    "get_lead_id"; "setup_sheet"; "process_lead"; "save_to_csv";
    "save_to_json"; "run_gmaps_pipeline"; "main" ].

(** Evaluating a global name: [NameError] when the module does not bind
    it. *)
Definition load_global (globals : list string) (name : string) : result unit :=
  if existsb (str_eqb name) globals then Ret tt else Raise (NameError name).

(** The character class [[._-]] *)
Definition is_delim (c : ascii) : bool :=
  Ascii.eqb c "." || Ascii.eqb c "_" || Ascii.eqb c "-".

(** [re.split(r'[._-]', s)] *)
Definition re_split_delims (s : string) : list string := split_on is_delim s.

(** The [try] block of [infer_name_from_email], lines 49-66, run in a
    module whose globals are [globals]. *)
Definition infer_name_try (globals : list string) (email : pyval) : result pyval :=
  match email with
  | PyStr e =>
      let local_part := lower (hd "" (split_char "@" e)) in
      if bool_decide (local_part ∈ GENERIC_EMAIL_PREFIXES) then Ret PyNone
      else
        match load_global globals "re" with
        | Raise err => Raise err
        | Ret _ =>
            let parts := re_split_delims local_part in
            let valid_parts :=
              filter (fun p => isalpha p && (1 <? Z.of_nat (String.length p))) parts in
            match valid_parts with
            | [] => Ret PyNone
            | _ => Ret (PyStr (join " " (map title valid_parts)))
            end
        end
  | _ => Raise AttributeError
  end.

Definition infer_name_in (globals : list string) (email : pyval) : pyval :=
  if negb (truthy email) then PyNone
  else match infer_name_try globals email with
       | Ret v => v
       | Raise _ => PyNone
       end.

(** [infer_name_from_email] as the module runs it. *)
Definition infer_name_from_email (email : pyval) : pyval :=
  infer_name_in module_globals email.

(* ===================================================================== *)
(** ** Statements that mutate state and may raise                        *)
(* ===================================================================== *)

(** A computation over a state [S]: it ends with a value or with an
    exception, and the state reached is kept in both cases (what a
    [try] block did before it raised stays done). *)
Definition SE (S A : Type) : Type := S -> result A * S.

Global Instance SE_ret {S} : MRet (SE S) := fun A (a : A) s => (Ret a, s).

Global Instance SE_bind {S} : MBind (SE S) := fun A B (k : A -> SE S B) (m : SE S A) s =>
  match m s with
  | (Ret a, s') => k a s'
  | (Raise e, s') => (Raise e, s')
  end.

Definition se_raise {S A} (e : exn) : SE S A := fun s => (Raise e, s).

Definition se_lift {S A} (r : result A) : SE S A := fun s => (r, s).

Definition se_get {S} : SE S S := fun s => (Ret s, s).

Definition se_modify {S} (f : S -> S) : SE S unit := fun s => (Ret tt, f s).

(** [try: body except Exception as e: handler e] *)
Definition try_except {S A} (body : SE S A) (handler : exn -> SE S A) : SE S A := fun s =>
  match body s with
  | (Ret a, s') => (Ret a, s')
  | (Raise e, s') => handler e s'
  end.

(* ===================================================================== *)
(** ** The collaborators                                                 *)
(* ===================================================================== *)

(** A record of [scrape_google_maps]'s result list: the fourteen keys it
    always sets.  The provider's text fields are [None] or a [str]. *)
Record raw_lead : Type := RawLead {
  raw_name : option string;
  raw_address : option string;
  raw_phone : option string;
  raw_website : option string;
  raw_rating : pyval;
  raw_reviews : pyval;
  raw_place_id : option string;
  raw_google_maps_url : option string;
  raw_category : option string;
  raw_city : option string;
  raw_state : option string;
  raw_zip_code : option string;
  raw_country : option string;
  raw_location : pyval
}.

(** What the pipeline cannot see from inside: the process environment,
    the Apify actor run behind [scrape_google_maps] (lines 32-76, with
    the selection of the fourteen fields), the page fetches and the
    model call behind [extract_contacts] (lines 77-202), the spreadsheet
    service, the file system, the clock and the thread scheduler. *)
Record world : Type := World {
  getenv : string -> option string;
  apify_run : string -> Z -> option string -> result (list raw_lead);
  site_extract : option string -> option string -> result pyval;
  (** [str(x)] for an object that is neither [None] nor a [str] *)
  py_repr : pyval -> string;
  (** [credentials.json] is there, and what opening or creating the
      spreadsheet does (setup_sheet, lines 127-147) *)
  credentials_exist : bool;
  gspread_open : option string -> result unit;
  (** [worksheet.get_all_records()] *)
  get_all_records : result (list dict);
  (** the exception, if any, that ends the [k]-th write to a sink *)
  io_fault : nat -> option exn;
  (** [datetime.now().strftime('%Y-%m-%d_%H-%M')] at the [k]-th write *)
  clock : nat -> string;
  (** the order in which the pool's futures complete *)
  schedule : list nat
}.

(** [a or b] on an optional credential *)
Definition text_or (a b : option string) : option string :=
  if text_truthy a then a else b.

(** scrape_google_maps.py, lines 16-76 *)
Definition scrape_google_maps (w : world) (search_query : string) (limit : Z)
    (apify_token : option string) (location_bias : option string) : result (list raw_lead) :=
  let token := text_or apify_token (getenv w "APIFY_API_TOKEN") in
  if negb (text_truthy token) then
    Raise (ValueError "Apify token not provided and APIFY_API_TOKEN not found in environment variables.")
  else apify_run w search_query limit location_bias.

(** extract_website_contacts.py, lines 62-202 *)
Definition extract_contacts (w : world) (url business_name : option string)
    (anthropic_key : option string) : result pyval :=
  let api_key := text_or anthropic_key (getenv w "ANTHROPIC_API_KEY") in
  if negb (text_truthy api_key) then
    Raise (ValueError "Anthropic key not provided and ANTHROPIC_API_KEY not found in environment variables.")
  else site_extract w url business_name.

(* ===================================================================== *)
(** ** process_lead                                                      *)
(* ===================================================================== *)

(** What a worker does that is visible from outside its return value. *)
Inductive call : Type :=
| PrintEnriching (name : option string)
| CallExtract (url name : option string)
| CallInfer (email : pyval)
| PrintEnrichmentError (name : option string) (e : exn).

(** The worker's state: the [enriched] dictionary it fills, and its
    calls so far, oldest first. *)
Record wstate : Type := WState {
  enriched : dict;
  wcalls : list call
}.

Definition w_call (c : call) : SE wstate unit :=
  se_modify (fun s => WState (enriched s) (wcalls s ++ [c])).

(** [enriched[k] = v] *)
Definition w_set (k : string) (v : pyval) : SE wstate unit :=
  se_modify (fun s => WState (dict_set (enriched s) k v) (wcalls s)).

(** [enriched.get(k)] *)
Definition w_get (k : string) : SE wstate pyval :=
  s ← se_get; mret (dict_get_default (enriched s) k PyNone).

(** [enriched[k]] *)
Definition w_item (k : string) : SE wstate pyval :=
  s ← se_get;
  match dict_get (enriched s) k with
  | Some v => mret v
  | None => se_raise (KeyError k)
  end.

Definition w_infer (email : pyval) : SE wstate pyval :=
  w_call (CallInfer email);; mret (infer_name_from_email email).

(** Lines 156-168 *)
Definition base_record (lead : raw_lead) (query : string) : dict :=
  [ ("lead_id", PyStr (get_lead_id (raw_name lead) (raw_address lead)));
    ("business_name", of_text (raw_name lead));
    ("category", of_text (raw_category lead));
    ("rating", raw_rating lead);
    ("review_count", raw_reviews lead);
    ("address", of_text (raw_address lead));
    ("city", of_text (raw_city lead));
    ("state", of_text (raw_state lead));
    ("phone", of_text (raw_phone lead));
    ("website", of_text (raw_website lead));
    ("search_query", PyStr query) ].

(** The [try] block, lines 172-204 *)
Definition enrich_try (w : world) (lead : raw_lead) (anthropic_key : option string)
    : SE wstate unit :=
  w_call (PrintEnriching (raw_name lead));;
  w_call (CallExtract (raw_website lead) (raw_name lead));;
  data ← se_lift (extract_contacts w (raw_website lead) (raw_name lead) anthropic_key);
  emails0 ← se_lift (py_get data "emails" PyNone);
  emails ← se_lift (py_join ", " (py_or emails0 (PyList [])));
  w_set "emails" (PyStr emails);;
  social0 ← se_lift (py_get data "social_media" PyNone);
  let social := py_or social0 (PyDict []) in
  facebook ← se_lift (py_get social "facebook" PyNone);
  w_set "facebook" facebook;;
  linkedin ← se_lift (py_get social "linkedin" PyNone);
  w_set "linkedin" linkedin;;
  instagram ← se_lift (py_get social "instagram" PyNone);
  w_set "instagram" instagram;;
  facebook_pixel ← se_lift (py_get data "facebook_pixel" (PyBool false));
  w_set "facebook_pixel" facebook_pixel;;
  google_pixel ← se_lift (py_get data "google_pixel" (PyBool false));
  w_set "google_pixel" google_pixel;;
  executive_summary ← se_lift (py_get data "executive_summary" (PyStr ""));
  w_set "executive_summary" executive_summary;;
  owner0 ← se_lift (py_get data "owner_info" PyNone);
  let owner := py_or owner0 (PyDict []) in
  owner_name ← se_lift (py_get owner "name" PyNone);
  w_set "owner_name" owner_name;;
  owner_title ← se_lift (py_get owner "title" PyNone);
  w_set "owner_title" owner_title;;
  current ← w_item "owner_name";
  if negb (truthy current) then
    owner_email ← se_lift (py_get owner "email" PyNone);
    if truthy owner_email then
      inferred ← w_infer owner_email;
      w_set "owner_name" inferred
    else
      joined ← w_get "emails";
      if truthy joined then
        all_emails ← w_item "emails";
        match all_emails with
        | PyStr e =>
            let first_email := strip (hd "" (split_char "," e)) in
            inferred ← w_infer (PyStr first_email);
            w_set "owner_name" inferred
        | _ => se_raise AttributeError
        end
      else mret tt
  else mret tt.

(** The body of [process_lead], lines 154-209, as a statement: what it
    returns or raises, and the state it leaves. *)
Definition process_lead_run (w : world) (lead : raw_lead) (query : string)
    (anthropic_key : option string) : result dict * wstate :=
  let body : SE wstate dict :=
    (if text_truthy (raw_website lead) then
       try_except (enrich_try w lead anthropic_key)
                  (fun e => w_call (PrintEnrichmentError (raw_name lead) e))
     else mret tt);;
    s ← se_get; mret (enriched s) in
  body (WState (base_record lead query) []).

(** [process_lead(lead, query, anthropic_key)]: the dictionary returned
    (none if the call raises). *)
Definition process_lead (w : world) (lead : raw_lead) (query : string)
    (anthropic_key : option string) : result dict :=
  fst (process_lead_run w lead query anthropic_key).

(** The e-mail addresses the worker handed to [infer_name_from_email],
    in call order. *)
Definition infer_calls (cs : list call) : list pyval :=
  omap (fun c => match c with CallInfer e => Some e | _ => None end) cs.

(* ===================================================================== *)
(** ** The orchestrator's state and effects                              *)
(* ===================================================================== *)

Inductive stage : Type := scraping | enriching | finalizing.

Inductive log_line : Type :=
| WarnExistingRecords (e : exn)
| WroteFile (count : nat) (filename : string)
| ErrorSavingCsv (e : exn)
| ErrorSavingJson (e : exn)
| ErrorSavingSheet (e : exn)
| SavedBatchJson (count : nat)
| SavedBatchSheet (count : nat)
| SavedBatchCsv (count : nat)
| WorkerException (e : exn).

(** What a run does that is visible from outside, oldest first in a
    trace: a call of [progress.update] (it posts to the tracker or
    prints, and swallows every transport error, lines 80-112), a call of
    [save_batch], a write to a sink with its outcome, a printed line. *)
Inductive effect : Type :=
| Progress (st : stage) (pct : Z) (leads_found : option Z)
| SaveBatch (batch : list dict)
| WriteJson (filename : string) (leads : list dict) (err : option exn)
| WriteCsv (filename : string) (rows : list (list pyval)) (err : option exn)
| AppendRows (rows : list (list pyval)) (err : option exn)
| Print (line : log_line).

Record pstate : Type := PState {
  trace : list effect;
  existing_ids : gset string;
  enriched_leads : list dict;
  batch_buffer : list dict;
  io_count : nat
}.

Definition emit (e : effect) : SE pstate unit :=
  se_modify (fun s => PState (trace s ++ [e]) (existing_ids s) (enriched_leads s)
                             (batch_buffer s) (io_count s)).

Definition set_existing_ids (ids : gset string) : SE pstate unit :=
  se_modify (fun s => PState (trace s) ids (enriched_leads s) (batch_buffer s) (io_count s)).

Definition set_batch_buffer (b : list dict) : SE pstate unit :=
  se_modify (fun s => PState (trace s) (existing_ids s) (enriched_leads s) b (io_count s)).

Definition push_result (r : dict) : SE pstate unit :=
  se_modify (fun s => PState (trace s) (existing_ids s) (enriched_leads s ++ [r])
                             (batch_buffer s ++ [r]) (io_count s)).

(** The next write: its number, which selects the clock reading and the
    fault. *)
Definition next_io : SE pstate nat :=
  s ← se_get;
  se_modify (fun s => PState (trace s) (existing_ids s) (enriched_leads s)
                             (batch_buffer s) (S (io_count s)));;
  mret (io_count s).

(** [progress.update(stage, pct, message, leads_found)] *)
Definition progress_update (st : stage) (pct : Z) (leads_found : option Z) : SE pstate unit :=
  emit (Progress st pct leads_found).

(** [str(x)] *)
Definition py_str (w : world) (v : pyval) : string :=
  match v with
  | PyStr s => s
  | PyNone => "None"
  | _ => py_repr w v
  end.

(* ===================================================================== *)
(** ** The sinks                                                         *)
(* ===================================================================== *)

Definition headers : list string :=
  [ "business_name"; "category"; "rating"; "review_count";
    "owner_name"; "owner_title"; "emails"; "phone";
    "website"; "linkedin"; "facebook"; "instagram"; "facebook_pixel"; "google_pixel";
    "executive_summary"; "city"; "state"; "lead_id" ].

(** [[l.get(h, "") for h in headers]]; it is also the row that
    [csv.DictWriter] writes with [extrasaction='ignore']. *)
Definition row_of (l : dict) : list pyval :=
  map (fun h => dict_get_default l h (PyStr "")) headers.

(** Lines 211-242 *)
Definition save_to_csv (w : world) (leads : list dict) : SE pstate (option string) :=
  match leads with
  | [] => mret None
  | _ =>
      k ← next_io;
      let filename := "gmaps_outreach_" ++ clock w k ++ ".csv" in
      match io_fault w k with
      | None =>
          emit (WriteCsv filename (map row_of leads) None);;
          emit (Print (WroteFile (List.length leads) filename));;
          mret (Some filename)
      | Some e =>
          emit (WriteCsv filename (map row_of leads) (Some e));;
          emit (Print (ErrorSavingCsv e));;
          mret None
      end
  end.

(** Lines 244-271 *)
Definition save_to_json (w : world) (leads : list dict) : SE pstate (option string) :=
  match leads with
  | [] => mret None
  | _ =>
      k ← next_io;
      let filename := "gmaps_outreach_" ++ clock w k ++ ".json" in
      match io_fault w k with
      | None =>
          emit (WriteJson filename leads None);;
          emit (Print (WroteFile (List.length leads) filename));;
          mret (Some filename)
      | Some e =>
          emit (WriteJson filename leads (Some e));;
          emit (Print (ErrorSavingJson e));;
          mret None
      end
  end.

(** Lines 120-150: the worksheet, if there is one. *)
Definition setup_sheet (w : world) (sheet_url : option string) : option unit :=
  if negb (credentials_exist w) then None
  else match gspread_open w sheet_url with
       | Ret ws => Some ws
       | Raise _ => None
       end.

(** The loop of lines 399-404. *)
Fixpoint collect_new_rows (w : world) (batch_leads : list dict)
    (new_rows : list (list pyval)) : SE pstate (list (list pyval)) :=
  match batch_leads with
  | [] => mret new_rows
  | l :: rest =>
      match dict_get l "lead_id" with
      | None => se_raise (KeyError "lead_id")
      | Some v =>
          s ← se_get;
          if bool_decide (py_str w v ∈ existing_ids s) then collect_new_rows w rest new_rows
          else
            set_existing_ids ({[ py_str w v ]} ∪ existing_ids s);;
            collect_new_rows w rest (new_rows ++ [row_of l])
      end
  end.

(** [worksheet.append_rows(new_rows)] *)
Definition append_rows (w : world) (new_rows : list (list pyval)) : SE pstate unit :=
  k ← next_io;
  match io_fault w k with
  | None => emit (AppendRows new_rows None)
  | Some e => emit (AppendRows new_rows (Some e));; se_raise e
  end.

(** Lines 382-418.  [sheet_mode] is [use_sheet and worksheet]. *)
Definition save_batch (w : world) (force_json sheet_mode : bool) (batch_leads : list dict)
    : SE pstate unit :=
  emit (SaveBatch batch_leads);;
  match batch_leads with
  | [] => mret tt
  | _ =>
      if force_json then
        save_to_json w batch_leads;;
        emit (Print (SavedBatchJson (List.length batch_leads)))
      else if sheet_mode then
        try_except
          (new_rows ← collect_new_rows w batch_leads [];
           match new_rows with
           | [] => mret tt
           | _ =>
               append_rows w new_rows;;
               emit (Print (SavedBatchSheet (List.length new_rows)))
           end)
          (fun e =>
             emit (Print (ErrorSavingSheet e));;
             if force_json then save_to_json w batch_leads;; mret tt
             else save_to_csv w batch_leads;; mret tt)
      else
        save_to_csv w batch_leads;;
        emit (Print (SavedBatchCsv (List.length batch_leads)))
  end.

(* ===================================================================== *)
(** ** run_gmaps_pipeline                                                *)
(* ===================================================================== *)

Record config : Type := Config {
  niche : string;
  location : string;
  limit : Z;
  increase_radius : bool;
  sheet_url : option string;
  force_csv : bool;
  force_json : bool;
  apify_token : option string;
  anthropic_key : option string
}.

Definition zlen {A} (l : list A) : Z := Z.of_nat (List.length l).

(** [l[:n]] *)
Definition py_slice_to {A} (l : list A) (n : Z) : list A :=
  if 0 <=? n then firstn (Z.to_nat n) l
  else firstn (Z.to_nat (zlen l + n)) l.

(** Lines 301-311: the leads of the second search whose key is new. *)
Fixpoint merge_new (seen_ids : gset string) (raw_leads_2 : list raw_lead) : list raw_lead :=
  match raw_leads_2 with
  | [] => []
  | l :: rest =>
      let lid := get_lead_id (raw_name l) (raw_address l) in
      if bool_decide (lid ∈ seen_ids) then merge_new seen_ids rest
      else l :: merge_new ({[ lid ]} ∪ seen_ids) rest
  end.

Definition lead_ids (ls : list raw_lead) : gset string :=
  list_to_set (map (fun l => get_lead_id (raw_name l) (raw_address l)) ls).

(** Lines 346-353 *)
Definition parse_target_state (location : string) : option string :=
  if contains "," location then
    let parts := split_char "," location in
    let potential_state := upper (strip (List.last parts "")) in
    if Z.of_nat (String.length potential_state) =? 2 then Some potential_state else None
  else None.

Definition text_eqb (t : option string) (s : string) : bool :=
  match t with
  | Some x => str_eqb x s
  | None => false
  end.

(** Lines 358-367: the lead takes the [continue]. *)
Definition location_skip (target_state : option string) (lead : raw_lead) : bool :=
  match target_state with
  | Some ts =>
      text_truthy target_state &&
      (let lead_state := raw_state lead in
       text_truthy lead_state && negb (text_eqb lead_state ts)
         && negb (text_eqb lead_state "New York") &&
       (let address_str := upper (text_str (raw_address lead)) in
        let state_str := upper (text_str (raw_state lead)) in
        negb (contains ts state_str) && negb (contains ts address_str)))
  | None => false
  end.

(** The loop of lines 356-371: the leads kept, and [skipped_location]. *)
Fixpoint filter_leads (target_state : option string) (existing : gset string)
    (raw_leads : list raw_lead) : list raw_lead * nat :=
  match raw_leads with
  | [] => ([], O)
  | lead :: rest =>
      let '(kept, skipped) := filter_leads target_state existing rest in
      if location_skip target_state lead then (kept, S skipped)
      else if bool_decide (get_lead_id (raw_name lead) (raw_address lead) ∈ existing)
           then (kept, skipped)
           else (lead :: kept, skipped)
  end.

(** [int(x)] for a float: truncation towards zero. *)
Definition float_trunc (f : float) : Z :=
  match Prim2SF f with
  | S754_finite s m e =>
      let v := if 0 <=? e then Z.shiftl (Zpos m) e else Z.shiftr (Zpos m) (- e) in
      if s then - v else v
  | _ => 0
  end.

Definition float_of_Z (z : Z) : float := PrimFloat.of_uint63 (Uint63.of_Z z).

(** Line 435 *)
Definition enrich_pct (enriched_count total_to_enrich : Z) : Z :=
  if 0 <? total_to_enrich then
    float_trunc (PrimFloat.mul (PrimFloat.div (float_of_Z enriched_count)
                                              (float_of_Z total_to_enrich))
                               (float_of_Z 100))
  else 100.

Definition BATCH_SIZE : Z := 10.

(** The order in which [as_completed] yields: at each step the scheduler
    picks one of the futures still running. *)
Fixpoint pick_order {A} (sched : list nat) (fuel : nat) (pending : list A) : list A :=
  match fuel, pending with
  | S f, x0 :: _ =>
      let k := (hd O sched mod List.length pending)%nat in
      nth k pending x0 :: pick_order (tl sched) f (firstn k pending ++ skipn (S k) pending)
  | _, _ => []
  end.

Definition as_completed {A} (sched : list nat) (futures : list A) : list A :=
  pick_order sched (List.length futures) futures.

(** The body of the loop over completed futures, lines 428-445. *)
Definition on_completion (w : world) (force_json sheet_mode : bool) (total_to_enrich : Z)
    (future : result dict) : SE pstate unit :=
  try_except
    (r ← se_lift future;
     push_result r;;
     s ← se_get;
     let enriched_count := zlen (enriched_leads s) in
     let pct := enrich_pct enriched_count total_to_enrich in
     (if (enriched_count mod 5 =? 0) || (enriched_count =? total_to_enrich)
      then progress_update enriching pct None else mret tt);;
     s ← se_get;
     if BATCH_SIZE <=? zlen (batch_buffer s) then
       save_batch w force_json sheet_mode (batch_buffer s);;
       set_batch_buffer []
     else mret tt)
    (fun e => emit (Print (WorkerException e))).

Fixpoint for_each {S A} (body : A -> SE S unit) (xs : list A) : SE S unit :=
  match xs with
  | [] => mret tt
  | x :: rest => body x;; for_each body rest
  end.

(** Lines 322-339: the worksheet in use and the keys already in it. *)
Definition load_existing (w : world) (c : config) : SE pstate bool :=
  let use_sheet := match sheet_url c with Some _ => true | None => false end
                   && negb (force_csv c) && negb (force_json c) in
  if use_sheet then
    match setup_sheet w (sheet_url c) with
    | Some _ =>
        match get_all_records w with
        | Ret existing_records =>
            set_existing_ids
              (list_to_set (map (fun row => py_str w (dict_get_default row "lead_id" PyNone))
                                existing_records));;
            mret true
        | Raise e => emit (Print (WarnExistingRecords e));; mret true
        end
    | None => mret false
    end
  else mret false.

(** Lines 281 and 294 *)
Definition query_1 (c : config) : string := niche c ++ " in " ++ location c.

Definition query_2 (c : config) : string := niche c ++ " near " ++ location c.

(** [scrape_google_maps(query, limit, apify_token=apify_token,
    location_bias=location)] *)
Definition search (w : world) (c : config) (query : string) : result (list raw_lead) :=
  scrape_google_maps w query (limit c) (apify_token c) (Some (location c)).

(** Lines 280-319 *)
Definition scrape_stage (w : world) (c : config) : SE pstate (list raw_lead) :=
  progress_update scraping 0 None;;
  raw_leads ← se_lift (search w c (query_1 c));
  progress_update scraping 50 (Some (zlen raw_leads));;
  raw_leads ←
    (if increase_radius c && (zlen raw_leads <? limit c) then
       progress_update scraping 60 None;;
       raw_leads_2 ← se_lift (search w c (query_2 c));
       let merged := (raw_leads ++ merge_new (lead_ids raw_leads) raw_leads_2)%list in
       progress_update scraping 90 (Some (zlen merged));;
       mret merged
     else mret raw_leads);
  progress_update scraping 100 (Some (zlen raw_leads));;
  mret (py_slice_to raw_leads (limit c)).

(** The leads that go to the pool, lines 341-373. *)
Definition unique_raw_leads_of (c : config) (existing : gset string)
    (raw_leads : list raw_lead) : list raw_lead :=
  fst (filter_leads (parse_target_state (location c)) existing raw_leads).

(** Lines 375-449: the pool, the batches and the last flush. *)
Definition enrich_stage (w : world) (c : config) (sheet_mode : bool)
    (unique_raw_leads : list raw_lead) : SE pstate unit :=
  progress_update enriching 0 None;;
  let total_to_enrich := zlen unique_raw_leads in
  let futures := map (fun lead => process_lead w lead (query_1 c) (anthropic_key c))
                     unique_raw_leads in
  for_each (on_completion w (force_json c) sheet_mode total_to_enrich)
           (as_completed (schedule w) futures);;
  s ← se_get;
  match batch_buffer s with
  | [] => mret tt
  | _ => save_batch w (force_json c) sheet_mode (batch_buffer s)
  end.

(** Lines 280-373: the leads that survive both filters, with the mode
    of the sink. *)
Definition select_leads (w : world) (c : config) : SE pstate (bool * list raw_lead) :=
  raw_leads ← scrape_stage w c;
  sheet_mode ← load_existing w c;
  s ← se_get;
  mret (sheet_mode, unique_raw_leads_of c (existing_ids s) raw_leads).

Definition run_body (w : world) (c : config) : SE pstate (list dict) :=
  '(sheet_mode, unique_raw_leads) ← select_leads w c;
  enrich_stage w c sheet_mode unique_raw_leads;;
  progress_update finalizing 100 None;;
  s ← se_get;
  mret (enriched_leads s).

Definition initial_state : pstate := PState [] ∅ [] [] O.

(** [run_gmaps_pipeline(...)]: what it returns or raises, and the state
    it leaves. *)
Definition run_gmaps_pipeline (w : world) (c : config) : result (list dict) * pstate :=
  run_body w c initial_state.

(** Projections of a trace. *)
Definition progress_events (t : list effect) : list (stage * Z) :=
  omap (fun e => match e with Progress st pct _ => Some (st, pct) | _ => None end) t.

Definition save_calls (t : list effect) : list (list dict) :=
  omap (fun e => match e with SaveBatch b => Some b | _ => None end) t.

Definition is_write (e : effect) : bool :=
  match e with
  | WriteJson _ _ _ | WriteCsv _ _ _ | AppendRows _ _ => true
  | _ => false
  end.

Definition write_attempts (t : list effect) : list effect := List.filter is_write t.

(* ===================================================================== *)
(** ** Readings of the specification, to compare the code with           *)
(* ===================================================================== *)


(** Sample data used by the examples below. *)
Definition sample_lead (name : string) (website state : option string) : raw_lead :=
  RawLead (Some name) (Some "1 Main St") None website PyNone PyNone None None None None
          state None None PyNone.

Definition lead_new_york : raw_lead := sample_lead "Empire Plumbing" None (Some "New York").

(** The keys that only a successful enrichment sets. *)
Definition enrichment_fields : list string :=
  [ "emails"; "facebook"; "linkedin"; "instagram"; "facebook_pixel"; "google_pixel";
    "executive_summary"; "owner_name"; "owner_title" ].

(** "Present and empty": the key is there and its value is an empty
    string, [None] or [False]. *)
Definition present_and_empty (r : dict) (k : string) : bool :=
  match dict_get r k with
  | Some v => negb (truthy v)
  | None => false
  end.

Definition is_raise {A} (r : result A) : bool :=
  match r with
  | Raise _ => true
  | Ret _ => false
  end.

(** A world whose search returns [search], whose site extraction returns
    [site], whose process environment is [env] and whose writes fail as
    [faults] says; the futures complete in submission order. *)
Definition sample_world (env : string -> option string) (search : result (list raw_lead))
    (site : result pyval) (faults : nat -> option exn) : world :=
  World env (fun _ _ _ => search) (fun _ _ => site) (fun _ => "<object>")
        true (fun _ => Ret tt) (Ret []) faults (fun _ => "2024-05-01_12-00") [].

Definition no_env : string -> option string := fun _ => None.

Definition full_env : string -> option string := fun _ => Some "secret".

Definition no_faults : nat -> option exn := fun _ => None.

Definition lead_acme : raw_lead := sample_lead "Acme" (Some "http://acme.com") (Some "TX").

(** An extraction result with a generic owner e-mail and one personal
    address in the list. *)
Definition generic_owner_data : pyval :=
  PyDict [ ("emails", PyList [PyStr "jane.doe@acme.com"]);
           ("owner_info", PyDict [("name", PyNone); ("email", PyStr "info@acme.com")]) ].

Definition world_generic_owner : world :=
  sample_world full_env (Ret [lead_acme]) (Ret generic_owner_data) no_faults.


(** What a trace leaves in the sinks: the rows of the appends and of the
    file writes that succeeded. *)
Definition sheet_rows (t : list effect) : list (list pyval) :=
  concat (omap (fun e => match e with AppendRows rows None => Some rows | _ => None end) t).

Definition csv_rows (t : list effect) : list (list pyval) :=
  concat (omap (fun e => match e with WriteCsv _ rows None => Some rows | _ => None end) t).

Definition json_records (t : list effect) : list dict :=
  concat (omap (fun e => match e with WriteJson _ leads None => Some leads | _ => None end) t).

(** The line printed when a write fails. *)
Definition failure_line (e : effect) : option log_line :=
  match e with
  | WriteJson _ _ (Some err) => Some (ErrorSavingJson err)
  | WriteCsv _ _ (Some err) => Some (ErrorSavingCsv err)
  | AppendRows _ (Some err) => Some (ErrorSavingSheet err)
  | _ => None
  end.

(** A finished record, as [process_lead] returns it for [lead_acme] when
    there is no extraction credential. *)
Definition record_acme : dict := base_record lead_acme "plumbers in Austin, TX".


Definition disk_full : nat -> option exn := fun _ => Some (OtherError "No space left on device").


(** A world in which nothing fails and the search finds nothing. *)
Definition world_quiet : world :=
  sample_world full_env (Ret []) (Ret (PyDict [])) no_faults.

(** A world in which every write fails. *)
Definition world_disk_full : world :=
  sample_world full_env (Ret []) (Ret (PyDict [])) disk_full.

(** The effects of a sink: everything but the calls of [progress.update]
    and of [save_batch]. *)
Definition is_sink_effect (e : effect) : bool :=
  match e with
  | Progress _ _ _ | SaveBatch _ => false
  | _ => true
  end.

(** The batches so far and the buffer hold the results so far, in order;
    the buffer is below the threshold; no batch is empty or larger than
    the threshold. *)
Definition batches_cover (s : pstate) : Prop :=
  (concat (save_calls (trace s)) ++ batch_buffer s)%list = enriched_leads s
  /\ zlen (batch_buffer s) < BATCH_SIZE
  /\ Forall (fun b => b <> [] /\ zlen b <= BATCH_SIZE) (save_calls (trace s)).

(** plumbers in Austin, TX; at most five results; flat-file output. *)
Definition config_austin : config :=
  Config "plumbers" "Austin, TX" 5 false None false false None None.

(** No credential for the search service. *)
Definition world_no_apify_token : world :=
  sample_world no_env (Ret [lead_acme]) (Ret (PyDict [])) no_faults.


(** Twelve businesses without a web site. *)
Definition twelve_leads : list raw_lead :=
  map (fun n => sample_lead n None (Some "TX"))
      [ "A"; "B"; "C"; "D"; "E"; "F"; "G"; "H"; "I"; "J"; "K"; "L" ].

Definition world_twelve : world :=
  sample_world full_env (Ret twelve_leads) (Ret (PyDict [])) no_faults.

Definition config_twelve : config :=
  Config "plumbers" "Austin, TX" 20 false None false false None None.

(** A state that differs from [s] by [added] at the end of its trace. *)
Definition with_trace (s : pstate) (added : list effect) : pstate :=
  PState (trace s ++ added) (existing_ids s) (enriched_leads s) (batch_buffer s) (io_count s).

(* ===================================================================== *)
(** ** Vocabulary for the further properties                             *)
(* ===================================================================== *)

(** A digit of [hexdigest()]. *)
Definition is_hex_c (c : ascii) : bool :=
  ((48 <=? code c) && (code c <=? 57)) || ((97 <=? code c) && (code c <=? 102)).

(** The key of a raw lead, as lines 303, 307 and 369 compute it. *)
Definition lead_key (l : raw_lead) : string := get_lead_id (raw_name l) (raw_address l).

(** What a successful enrichment adds when the extraction result is the
    empty dictionary. *)
Definition empty_enrichment : dict :=
  [ ("emails", PyStr ""); ("facebook", PyNone); ("linkedin", PyNone);
    ("instagram", PyNone); ("facebook_pixel", PyBool false);
    ("google_pixel", PyBool false); ("executive_summary", PyStr "");
    ("owner_name", PyNone); ("owner_title", PyNone) ].

(** The calls of the extraction collaborator in a worker's trace. *)
Definition extract_calls (cs : list call) : list (option string * option string) :=
  omap (fun c => match c with CallExtract u n => Some (u, n) | _ => None end) cs.

(** The output goes to a file: no spreadsheet was asked for, or one of
    the two overrides is set (line 327). *)
Definition file_mode (c : config) : bool :=
  negb (match sheet_url c with Some _ => true | None => false end
        && negb (force_csv c) && negb (force_json c)).

(** The keys in the [lead_id] column of the spreadsheet's records
    (line 334). *)
Definition sheet_keys (w : world) (records : list dict) : list string :=
  map (fun row => py_str w (dict_get_default row "lead_id" PyNone)) records.

(** A spreadsheet that already holds [record_acme]. *)
Definition world_sheet_knows_acme : world :=
  World full_env (fun _ _ _ => Ret [lead_acme; lead_new_york]) (fun _ _ => Ret (PyDict []))
        (fun _ => "<object>") true (fun _ => Ret tt) (Ret [record_acme]) no_faults
        (fun _ => "2024-05-01_12-00") [].

Definition config_sheet : config :=
  Config "plumbers" "Austin" 5 false (Some "https://docs.example/sheet") false false None None.


Definition is_progress (e : effect) : bool :=
  match e with
  | Progress _ _ _ => true
  | _ => false
  end.

(** No [credentials.json] at hand: the spreadsheet cannot be opened. *)
Definition world_no_credentials : world :=
  World full_env (fun _ _ _ => Ret twelve_leads) (fun _ _ => Ret (PyDict []))
        (fun _ => "<object>") false (fun _ => Ret tt) (Ret []) no_faults
        (fun _ => "2024-05-01_12-00") [].

(** The configuration of the hosted deployment: JSON output. *)
Definition config_json : config :=
  Config "plumbers" "Austin, TX" 20 false None false true None None.

(* ===================================================================== *)
(** ** extract_website_contacts.py, lines 19-202                         *)
(* ===================================================================== *)

(** What [extract_contacts] cannot see from inside: the HTTP client
    ([client.get] followed by [raise_for_status]), html2text, [urljoin],
    the DuckDuckGo request, the model call with the text of its first
    content block, and [json.loads] on a candidate object ([None] stands
    for [JSONDecodeError]). *)
Record site : Type := Site {
  http_fetch : string -> result string;
  html_to_markdown : string -> string;
  urljoin : string -> string -> string;
  ddg_post : string -> result (Z * string);
  ask_model : string -> string -> result string;
  json_loads : string -> option dict
}.

Definition CONTACT_PATHS : list string :=
  [ "/contact"; "/about"; "/team"; "/contact-us"; "/about-us";
    "/our-team"; "/staff"; "/people"; "/meet-the-team"; "/leadership";
    "/management"; "/founders"; "/who-we-are"; "/company"; "/meet-us";
    "/our-story"; "/the-team"; "/employees"; "/directory"; "/locations"; "/offices" ].

(** The line feed of the f-strings. *)
Definition nl : string := String "010"%char EmptyString.

(** Lines 26-38 *)
Definition fetch_page (s : site) (url : string) : string :=
  match http_fetch s url with
  | Ret text => text
  | Raise _ => ""
  end.

(** Lines 46-60 *)
Definition search_duckduckgo (s : site) (query : string) : string :=
  match ddg_post s query with
  | Ret (status, text) => if status =? 200 then html_to_markdown s text else ""
  | Raise _ => ""
  end.

(** Lines 88-94 and 96-102 *)
Definition has_fb_pixel (main_html : string) : bool :=
  contains "fbevents.js" main_html || contains "fbq('init'" main_html.

Definition has_google_pixel (main_html : string) : bool :=
  contains "googletagmanager.com/gtag/js" main_html || contains "gtag(" main_html
  || contains "UA-" main_html || contains "G-" main_html || contains "AW-" main_html.

(** Lines 108-114 *)
Definition check_path (s : site) (url path : string) : string :=
  let full_url := urljoin s url path in
  let html := fetch_page s full_url in
  if negb (str_eqb html "") && (500 <? Z.of_nat (String.length html)) then
    "# Page " ++ path ++ nl ++ nl ++ html_to_markdown s html ++ nl ++ nl
  else "".

(** [s[:n]] for [n >= 0] *)
Fixpoint str_take (n : nat) (s : string) : string :=
  match n, s with
  | S k, String c r => String c (str_take k r)
  | _, _ => EmptyString
  end.

Fixpoint str_drop (n : nat) (s : string) : string :=
  match n, s with
  | S k, String _ r => str_drop k r
  | _, _ => s
  end.

(** [s.find(c)] and [s.rfind(c)]: the index, [None] for [-1]. *)
Fixpoint find_char (c : ascii) (s : string) : option nat :=
  match s with
  | EmptyString => None
  | String x r =>
      if Ascii.eqb x c then Some O
      else match find_char c r with
           | Some i => Some (S i)
           | None => None
           end
  end.

Fixpoint rfind_char (c : ascii) (s : string) : option nat :=
  match s with
  | EmptyString => None
  | String x r =>
      match rfind_char c r with
      | Some i => Some (S i)
      | None => if Ascii.eqb x c then Some O else None
      end
  end.

(** Lines 78-128: the text handed to the model, for the main page
    [main_html]. *)
Definition model_content (s : site) (url : string) (business_name : string)
    (main_html : string) : string :=
  let markdown_content :=
    "" ++ ("# Main Page (" ++ url ++ ")" ++ nl ++ nl ++ html_to_markdown s main_html
           ++ nl ++ nl) in
  let markdown_content :=
    fold_left (fun acc res => acc ++ res)
              (map (check_path s url) (firstn 5 CONTACT_PATHS)) markdown_content in
  let ddg_content := search_duckduckgo s (business_name ++ " owner email contact") in
  let markdown_content :=
    markdown_content ++ ("# DuckDuckGo Search Results" ++ nl ++ nl ++ ddg_content
                         ++ nl ++ nl) in
  if 50000 <? Z.of_nat (String.length markdown_content) then
    str_take (Z.to_nat 50000) markdown_content ++ (nl ++ "...[TRUNCATED]")
  else markdown_content.

Definition pixel_dict (fb google : bool) : dict :=
  [ ("facebook_pixel", PyBool fb); ("google_pixel", PyBool google) ].

(** Lines 183-202: from the model's text to the result. *)
Definition parse_reply (s : site) (fb google : bool) (text : string) : dict :=
  let content_text := strip text in
  match find_char "{" content_text, rfind_char "}" content_text with
  | Some start_index, Some end_index =>
      let json_str :=
        str_take (S end_index - start_index) (str_drop start_index content_text) in
      match json_loads s json_str with
      | Some data =>
          dict_set (dict_set data "facebook_pixel" (PyBool fb)) "google_pixel" (PyBool google)
      | None => pixel_dict fb google
      end
  | _, _ => pixel_dict fb google
  end.

(** Lines 77-202, after the check of the key.  Without a URL the
    request of the main page fails inside [fetch_page]. *)
Definition extract_site (s : site) (url business_name : option string) : result pyval :=
  let main_html := match url with
                   | Some u => fetch_page s u
                   | None => ""
                   end in
  if str_eqb main_html "" then Ret (PyDict [])
  else
    match ask_model s (text_str business_name)
                    (model_content s (text_str url) (text_str business_name) main_html) with
    | Raise e => Raise e
    | Ret text =>
        Ret (PyDict (parse_reply s (has_fb_pixel main_html) (has_google_pixel main_html) text))
    end.

(** The world in which the extraction service is [s]. *)
Definition world_with_site (w : world) (s : site) : world :=
  World (getenv w) (apify_run w) (extract_site s) (py_repr w) (credentials_exist w)
        (gspread_open w) (get_all_records w) (io_fault w) (clock w) (schedule w).

(** A site that does not answer. *)
Definition site_down : site :=
  Site (fun _ => Raise (OtherError "connection refused")) (fun html => html)
       (fun base path => base ++ path) (fun _ => Raise (OtherError "connection refused"))
       (fun _ _ => Ret "{}") (fun _ => Some []).

(* ===================================================================== *)
(** ** main, gmaps_lead_pipeline.py, lines 457-480                       *)
(* ===================================================================== *)

(** The parsed command line. *)
Record args : Type := Args {
  args_niche : option string;
  args_location : option string;
  args_increase_radius : bool;
  args_search : option string;
  args_limit : Z;
  args_sheet_url : option string;
  args_csv : bool;
  args_json : bool
}.

(** [None]: the usage error of line 478 is printed and nothing runs.  The
    two credentials and the identifiers of the job keep their default,
    [None]; an exception of the run leaves [main] as it is. *)
Definition main (w : world) (a : args) : option (result (list dict) * pstate) :=
  if text_truthy (args_search a) && negb (text_truthy (args_niche a)) then
    Some (run_gmaps_pipeline w
            (Config (text_str (args_search a)) "" (args_limit a) false (args_sheet_url a)
                    (args_csv a) (args_json a) None None))
  else if text_truthy (args_niche a) && text_truthy (args_location a) then
    Some (run_gmaps_pipeline w
            (Config (text_str (args_niche a)) (text_str (args_location a)) (args_limit a)
                    (args_increase_radius a) (args_sheet_url a) (args_csv a) (args_json a)
                    None None))
  else None.

(** A legacy command line: [--search "plumbers Austin" --limit 20
    --increase-radius]. *)
Definition args_legacy : args :=
  Args None None true (Some "plumbers Austin") 20 None false false.

(* ===================================================================== *)
(** ** modal_webhook.py                                                  *)
(* ===================================================================== *)

(** The keyword arguments of [run_pipeline.spawn], lines 138-151. *)
Record spawn_call : Type := SpawnCall {
  sp_job_id : pyval;
  sp_user_id : pyval;
  sp_niche : pyval;
  sp_location : pyval;
  sp_limit : pyval;
  sp_increase_radius : pyval;
  sp_apify_token : pyval;
  sp_anthropic_key : pyval;
  sp_callback_url : pyval;
  sp_callback_secret : pyval;
  sp_supabase_url : pyval;
  sp_supabase_key : pyval
}.

(** What the two functions cannot see from inside: whether the platform
    accepts the spawn, and [str(e)] of an exception. *)
Record host : Type := Host {
  spawn : spawn_call -> result unit;
  exn_str : exn -> string
}.

(** Lines 126-130 *)
Definition required_fields : list string :=
  [ "job_id"; "user_id"; "niche"; "location";
    "apify_token"; "anthropic_key"; "callback_url"; "callback_secret";
    "supabase_url"; "supabase_key" ].

(** [repr] of a list of strings that hold no quote and nothing to
    escape, as the names of the fields do. *)
Definition repr_names (l : list string) : string :=
  "[" ++ join ", " (map (fun f => "'" ++ f ++ "'") l) ++ "]".

(** [d[k]] *)
Definition dict_item (d : dict) (k : string) : result pyval :=
  match dict_get d k with
  | Some v => Ret v
  | None => Raise (KeyError k)
  end.

Definition error_response (message : string) : dict :=
  [ ("status", PyStr "error"); ("message", PyStr message) ].

(** Lines 118-161.  The state is the list of the spawns attempted. *)
Definition webhook (h : host) (data : dict) : SE (list spawn_call) dict :=
  let missing :=
    List.filter (fun f => negb (truthy (dict_get_default data f PyNone))) required_fields in
  if match missing with [] => false | _ => true end then
    mret (error_response ("Missing required fields: " ++ repr_names missing))
  else
    try_except
      (job_id ← se_lift (dict_item data "job_id");
       user_id ← se_lift (dict_item data "user_id");
       niche ← se_lift (dict_item data "niche");
       location ← se_lift (dict_item data "location");
       let limit := dict_get_default data "limit" (PyInt 50) in
       let increase_radius := dict_get_default data "increase_radius" (PyBool true) in
       apify_token ← se_lift (dict_item data "apify_token");
       anthropic_key ← se_lift (dict_item data "anthropic_key");
       callback_url ← se_lift (dict_item data "callback_url");
       callback_secret ← se_lift (dict_item data "callback_secret");
       supabase_url ← se_lift (dict_item data "supabase_url");
       supabase_key ← se_lift (dict_item data "supabase_key");
       let call := SpawnCall job_id user_id niche location limit increase_radius
                             apify_token anthropic_key callback_url callback_secret
                             supabase_url supabase_key in
       se_modify (fun calls => (calls ++ [call])%list);;
       se_lift (spawn h call);;
       job_id ← se_lift (dict_item data "job_id");
       mret [ ("status", PyStr "accepted"); ("job_id", job_id);
              ("message", PyStr "Pipeline started in background") ])
      (fun e => mret (error_response (exn_str h e))).

(** The arguments of [run_pipeline], lines 35-48, of the annotated
    types. *)
Record job : Type := Job {
  job_id : string;
  user_id : string;
  job_niche : string;
  job_location : string;
  job_limit : Z;
  job_increase_radius : bool;
  job_apify_token : string;
  job_anthropic_key : string;
  callback_url : string;
  callback_secret : string;
  supabase_url : string;
  supabase_key : string
}.



(** A host on which every spawn is accepted. *)
Definition host_ok : host :=
  Host (fun _ => Ret tt)
       (fun e => match e with
                 | ValueError msg | OtherError msg => msg
                 | KeyError key => "'" ++ key ++ "'"
                 | NameError name => "name '" ++ name ++ "' is not defined"
                 | TypeError | AttributeError => "error"
                 end).

(** A complete request body, and one whose location is the empty
    string. *)
Definition request_austin : dict :=
  [ ("job_id", PyStr "job-1"); ("user_id", PyStr "user-1"); ("niche", PyStr "plumbers");
    ("location", PyStr "Austin, TX"); ("apify_token", PyStr "a"); ("anthropic_key", PyStr "b");
    ("callback_url", PyStr "https://example.org/cb"); ("callback_secret", PyStr "s");
    ("supabase_url", PyStr "https://example.org/db"); ("supabase_key", PyStr "k") ].

Definition job_austin : job :=
  Job "job-1" "user-1" "plumbers" "Austin, TX" 20 false "a" "b"
      "https://example.org/cb" "s" "https://example.org/db" "k".

(* ===================================================================== *)
(** * Properties                                                         *)
(* ===================================================================== *)

(** ** Strings *)




(** ** The hash agrees with RFC 1321's test suite and with hashlib *)

Example md5_empty : md5_hexdigest (encode "") = "d41d8cd98f00b204e9800998ecf8427e".
Proof. vm_compute. reflexivity. Qed.

Example md5_abc : md5_hexdigest (encode "abc") = "900150983cd24fb0d6963f7d28e17f72".
Proof. vm_compute. reflexivity. Qed.

Example md5_two_blocks :
  md5_hexdigest
    (encode "12345678901234567890123456789012345678901234567890123456789012345678901234567890")
  = "57edf4a22be3c955ac49da2e2107b67a".
Proof. vm_compute. reflexivity. Qed.

Example get_lead_id_acme :
  get_lead_id (Some "Acme") (Some "1 Main St") = "a5d2e20547f1bedd9ae6a4b3882b28b9".
Proof. vm_compute. reflexivity. Qed.

(** ** C10: the separator is not escaped *)


(** ** C4: name inference *)

Lemma load_global_re : load_global module_globals "re" = Raise (NameError "re").
Proof. reflexivity. Qed.

(** Since [re] is not among the module's names, every call ends in the
    handler or on one of the two early returns. *)
Lemma infer_name_from_email_none (email : pyval) : infer_name_from_email email = PyNone.
Proof.
  unfold infer_name_from_email, infer_name_in.
  destruct (truthy email); [| reflexivity]. cbn [negb].
  destruct email; try reflexivity. cbn [infer_name_try].
  case (bool_decide _); [reflexivity |]. rewrite load_global_re. reflexivity.
Qed.

(** With [re] imported the function computes what its docstring and the
    specification announce. *)
Example infer_name_with_re :
  let infer := infer_name_in ("re" :: module_globals) in
  infer (PyStr "john.smith@co.com") = PyStr "John Smith"
  /\ infer (PyStr "info@co.com") = PyNone
  /\ infer (PyStr "jsmith@co.com") = PyStr "Jsmith"
  /\ infer (PyStr "j@co.com") = PyNone
  /\ infer (PyStr "") = PyNone.
Proof. vm_compute. auto. Qed.

(** C4.  On ["john.smith@co.com"] and ["jsmith@co.com"] the [try] block
    of [infer_name_from_email] raises [NameError] at [re.split], the
    handler returns [None]: the function does not return ["John Smith"]
    and ["Jsmith"]. *)
Theorem infer_name_from_email_john_smith :
  infer_name_try module_globals (PyStr "john.smith@co.com") = Raise (NameError "re")
  /\ infer_name_from_email (PyStr "john.smith@co.com") = PyNone
  /\ infer_name_from_email (PyStr "jsmith@co.com") = PyNone.
Proof. vm_compute. auto. Qed.

(** ** C5: the location filter *)

Lemma str_eqb_eq (a b : string) : str_eqb a b = true <-> a = b.
Proof. apply String.eqb_eq. Qed.




Lemma filter_leads_In (target : option string) (existing : gset string)
    (raw_leads : list raw_lead) (lead : raw_lead) :
  In lead (fst (filter_leads target existing raw_leads)) <->
  In lead raw_leads /\ location_skip target lead = false
  /\ get_lead_id (raw_name lead) (raw_address lead) ∉ existing.
Proof.
  induction raw_leads as [|l rest IH]; cbn [filter_leads].
  - cbn. tauto.
  - destruct (filter_leads target existing rest) as [kept skipped] eqn:E. cbn [fst] in IH.
    destruct (location_skip target l) eqn:Hs; cbn [fst].
    + rewrite IH. cbn [In]. split; [tauto |].
      intros ([-> | H] & H1 & H2); [congruence | tauto].
    + case_bool_decide as Hid; cbn [fst In]; rewrite IH.
      * split; [tauto |]. intros ([-> | H] & H1 & H2); [contradiction | tauto].
      * split; [| tauto]. intros [-> | H]; [| tauto]. auto.
Qed.




(** ** Dictionaries *)

Lemma dict_get_set_eq (d : dict) (k : string) (v : pyval) :
  dict_get (dict_set d k v) k = Some v.
Proof.
  induction d as [|[k' v'] d IH]; cbn.
  - unfold str_eqb. now rewrite String.eqb_refl.
  - destruct (str_eqb k k') eqn:E; cbn; rewrite E; [reflexivity | exact IH].
Qed.

Lemma dict_get_set_ne (d : dict) (k k' : string) (v : pyval) :
  k <> k' -> dict_get (dict_set d k v) k' = dict_get d k'.
Proof.
  intros Hne. induction d as [|[k0 v0] d IH]; cbn.
  - destruct (str_eqb k' k) eqn:E; [apply str_eqb_eq in E; congruence | reflexivity].
  - destruct (str_eqb k k0) eqn:E; cbn.
    + apply str_eqb_eq in E. subst k0.
      destruct (str_eqb k' k) eqn:E'; [apply str_eqb_eq in E'; congruence | reflexivity].
    + now rewrite IH.
Qed.

(** ** The worker *)

(** One step of symbolic execution of a worker statement. *)
Ltac w_unfold :=
  unfold enrich_try, w_infer, w_item, w_get, w_call, w_set, se_lift, se_modify, se_get,
    se_raise, try_except, mbind, mret, SE_bind, SE_ret.

Ltac w_step := cbn beta iota delta [enriched wcalls py_get negb fst snd].

Lemma try_except_returns {S A} (body : SE S A) (handler : exn -> SE S A) (s : S) :
  (forall e s1, exists a s2, handler e s1 = (Ret a, s2)) ->
  exists a s', try_except body handler s = (Ret a, s').
Proof.
  intros Hh. unfold try_except. destruct (body s) as [[a|e] s1]; eauto.
Qed.

(** The worker returns a dictionary, whatever the collaborator does. *)
Lemma process_lead_run_returns (w : world) (lead : raw_lead) (query : string)
    (key : option string) :
  exists rec cs, process_lead_run w lead query key = (Ret rec, WState rec cs).
Proof.
  unfold process_lead_run. destruct (text_truthy (raw_website lead)).
  - destruct (try_except_returns (enrich_try w lead key)
               (fun e => w_call (PrintEnrichmentError (raw_name lead) e))
               (WState (base_record lead query) [])) as (a & [d cs] & E).
    { intros e s1. eexists _, _. reflexivity. }
    exists d, cs. unfold mbind, SE_bind at 1. rewrite E. reflexivity.
  - eexists _, _. reflexivity.
Qed.



(** ** C6: the owner-name fallback *)

(** C6, as stated, fails when the extraction result carries a generic
    owner e-mail and a personal address in its list: the owner's e-mail
    is tried and yields nothing, the record is left without owner name,
    and the first list entry is never handed to the inference, from which
    a name could be read. *)
Lemma owner_chain_skips_email_list :
  (exists rec cs,
      process_lead_run world_generic_owner lead_acme "plumbers in Austin, TX" None
        = (Ret rec, WState rec cs)
      /\ dict_get rec "owner_name" = Some PyNone
      /\ dict_get rec "emails" = Some (PyStr "jane.doe@acme.com")
      /\ infer_calls cs = [PyStr "info@acme.com"])
  /\ infer_name_in ("re" :: module_globals) (PyStr "jane.doe@acme.com") = PyStr "Jane Doe".
Proof.
  split; [| vm_compute; reflexivity].
  eexists _, _. split; [vm_compute; reflexivity |]. vm_compute. auto.
Qed.

(** C6, amended.  When the extraction returns a dictionary whose e-mail
    list joins to [joined] and whose owner information is [owner], the
    record's owner name is: the owner's name if that is non-empty;
    otherwise, if the owner has an e-mail, the name inferred from it and
    nothing else is tried, even when that inference yields nothing;
    otherwise, if [joined] is non-empty, the name inferred from its
    first comma-separated entry; otherwise the (empty) owner's name. *)
Theorem owner_name_chain (w : world) (lead : raw_lead) (query : string)
    (key : option string) (kvs social owner : dict) (joined : string)
    (Hsite : text_truthy (raw_website lead) = true)
    (Hdata : extract_contacts w (raw_website lead) (raw_name lead) key = Ret (PyDict kvs))
    (Hjoin : py_join ", " (py_or (dict_get_default kvs "emails" PyNone) (PyList []))
             = Ret joined)
    (Hsocial : py_or (dict_get_default kvs "social_media" PyNone) (PyDict []) = PyDict social)
    (Howner : py_or (dict_get_default kvs "owner_info" PyNone) (PyDict []) = PyDict owner) :
  let name := dict_get_default owner "name" PyNone in
  let email := dict_get_default owner "email" PyNone in
  let first_email := PyStr (strip (hd "" (split_char "," joined))) in
  exists rec cs,
    process_lead_run w lead query key = (Ret rec, WState rec cs)
    /\ if truthy name then
         dict_get rec "owner_name" = Some name /\ infer_calls cs = []
       else if truthy email then
         dict_get rec "owner_name" = Some (infer_name_from_email email)
         /\ infer_calls cs = [email]
       else if truthy (PyStr joined) then
         dict_get rec "owner_name" = Some (infer_name_from_email first_email)
         /\ infer_calls cs = [first_email]
       else
         dict_get rec "owner_name" = Some name /\ infer_calls cs = [].
Proof.
  intros name email first_email.
  unfold process_lead_run. rewrite Hsite. w_unfold. w_step.
  rewrite Hdata. w_step. rewrite Hjoin. w_step. rewrite Hsocial. w_step.
  rewrite Howner. w_step.
  rewrite (dict_get_set_ne _ "owner_title" "owner_name") by discriminate.
  rewrite dict_get_set_eq. fold name email.
  destruct (truthy name) eqn:Hn; w_step.
  { eexists _, _. split; [reflexivity |]. split; [| reflexivity].
    rewrite (dict_get_set_ne _ "owner_title" "owner_name") by discriminate.
    apply dict_get_set_eq. }
  destruct (truthy email) eqn:He; w_step.
  { eexists _, _. split; [reflexivity |]. split; [apply dict_get_set_eq | reflexivity]. }
  unfold dict_get_default.
  repeat rewrite (dict_get_set_ne _ _ "emails") by discriminate.
  rewrite dict_get_set_eq.
  destruct (truthy (PyStr joined)) eqn:Hj; w_step.
  - repeat rewrite (dict_get_set_ne _ _ "emails") by discriminate.
    rewrite dict_get_set_eq. w_step.
    eexists _, _. split; [reflexivity |]. split; [apply dict_get_set_eq | reflexivity].
  - eexists _, _. split; [reflexivity |]. split; [| reflexivity].
    rewrite (dict_get_set_ne _ "owner_title" "owner_name") by discriminate.
    apply dict_get_set_eq.
Qed.

Lemma owner_name_chain_witness :
  exists rec cs,
    process_lead_run world_generic_owner lead_acme "plumbers in Austin, TX" None
      = (Ret rec, WState rec cs)
    /\ dict_get rec "owner_name" = Some (infer_name_from_email (PyStr "info@acme.com"))
    /\ infer_calls cs = [PyStr "info@acme.com"].
Proof.
  exact (owner_name_chain world_generic_owner lead_acme "plumbers in Austin, TX" None
           [ ("emails", PyList [PyStr "jane.doe@acme.com"]);
             ("owner_info", PyDict [("name", PyNone); ("email", PyStr "info@acme.com")]) ]
           [] [("name", PyNone); ("email", PyStr "info@acme.com")] "jane.doe@acme.com"
           eq_refl eq_refl eq_refl eq_refl eq_refl).
Defined.

(** ** The sinks *)

Ltac p_unfold_core :=
  unfold append_rows, next_io, progress_update, emit,
    set_existing_ids, set_batch_buffer, push_result, se_lift, se_modify, se_get, se_raise,
    try_except, mbind, mret, SE_bind, SE_ret.

Ltac p_unfold := unfold save_to_csv, save_to_json; p_unfold_core.

Ltac p_step :=
  cbn beta iota delta [trace existing_ids enriched_leads batch_buffer io_count fst snd].

Lemma save_to_csv_run (w : world) (leads : list dict) (s : pstate) :
  leads <> [] ->
  let k := io_count s in
  let filename := "gmaps_outreach_" ++ clock w k ++ ".csv" in
  save_to_csv w leads s =
  (Ret (match io_fault w k with None => Some filename | Some _ => None end),
   PState (trace s ++ [ WriteCsv filename (map row_of leads) (io_fault w k);
                        Print (match io_fault w k with
                               | None => WroteFile (List.length leads) filename
                               | Some e => ErrorSavingCsv e
                               end) ])
          (existing_ids s) (enriched_leads s) (batch_buffer s) (S k)).
Proof.
  intros Hne k filename. destruct leads as [|l leads]; [congruence |].
  p_unfold. p_step. fold k. fold filename.
  destruct (io_fault w k); p_step; rewrite <- app_assoc; reflexivity.
Qed.

Lemma save_to_json_run (w : world) (leads : list dict) (s : pstate) :
  leads <> [] ->
  let k := io_count s in
  let filename := "gmaps_outreach_" ++ clock w k ++ ".json" in
  save_to_json w leads s =
  (Ret (match io_fault w k with None => Some filename | Some _ => None end),
   PState (trace s ++ [ WriteJson filename leads (io_fault w k);
                        Print (match io_fault w k with
                               | None => WroteFile (List.length leads) filename
                               | Some e => ErrorSavingJson e
                               end) ])
          (existing_ids s) (enriched_leads s) (batch_buffer s) (S k)).
Proof.
  intros Hne k filename. destruct leads as [|l leads]; [congruence |].
  p_unfold. p_step. fold k. fold filename.
  destruct (io_fault w k); p_step; rewrite <- app_assoc; reflexivity.
Qed.

(** The rows of a batch that the spreadsheet branch keeps: those of the
    leads whose key is not yet known, first occurrence only. *)
Lemma collect_new_rows_run (w : world) (batch : list dict) (rows : list (list pyval))
    (s : pstate) :
  exists r ids',
    collect_new_rows w batch rows s
      = (r, PState (trace s) ids' (enriched_leads s) (batch_buffer s) (io_count s))
    /\ existing_ids s ⊆ ids'
    /\ forall rows', r = Ret rows' ->
         (forall l v, In l batch -> dict_get l "lead_id" = Some v -> py_str w v ∈ ids')
         /\ exists new, rows' = (rows ++ new)%list
              /\ forall row, In row new ->
                   exists l v, In l batch /\ row = row_of l
                               /\ dict_get l "lead_id" = Some v
                               /\ py_str w v ∉ existing_ids s.
Proof.
  revert rows s. induction batch as [|l rest IH]; intros rows s; cbn [collect_new_rows].
  - exists (Ret rows), (existing_ids s). destruct s as [t ids el bb n].
    split; [reflexivity |]. split; [set_solver |].
    intros rows' [= <-]. split; [intros l v [] |].
    exists []. split; [now rewrite app_nil_r | intros row []].
  - destruct (dict_get l "lead_id") as [v|] eqn:Hv.
    + p_unfold. p_step. case_bool_decide as Hin.
      * destruct (IH rows s) as (r & ids' & E & Hsub & Hrows).
        exists r, ids'. split; [exact E |]. split; [exact Hsub |].
        intros rows' Hr. pose proof (Hrows rows' Hr) as (Hall & new & Hnew' & Hnew).
        subst rows'.
        split.
        -- intros l0 v0 [<- | Hl0] Hv0; [| eauto].
           rewrite Hv in Hv0. injection Hv0 as <-.
           exact (proj1 (elem_of_subseteq _ _) Hsub _ Hin).
        -- exists new. split; [reflexivity |].
           intros row Hrow. pose proof (Hnew row Hrow) as (l0 & v0 & ? & ? & ? & ?).
           exists l0, v0. cbn [In]. auto.
      * destruct (IH (rows ++ [row_of l])%list
                    (PState (trace s) ({[ py_str w v ]} ∪ existing_ids s) (enriched_leads s)
                            (batch_buffer s) (io_count s)))
          as (r & ids' & E & Hsub & Hrows).
        cbn [trace existing_ids enriched_leads batch_buffer io_count] in E, Hsub, Hrows.
        exists r, ids'. split; [exact E |].
        split; [etransitivity; [apply union_subseteq_r | exact Hsub] |].
        intros rows' Hr. pose proof (Hrows rows' Hr) as (Hall & new & Hnew' & Hnew).
        subst rows'.
        split.
        -- intros l0 v0 [<- | Hl0] Hv0; [| eauto].
           rewrite Hv in Hv0. injection Hv0 as <-.
           apply (proj1 (elem_of_subseteq _ _) Hsub), elem_of_union_l, elem_of_singleton_2.
           reflexivity.
        -- exists (row_of l :: new). split; [now rewrite <- app_assoc |].
           intros row [<- | Hrow].
           ++ exists l, v. cbn [In]. auto.
           ++ pose proof (Hnew row Hrow) as (l0 & v0 & H0 & H1 & Hv0 & H2).
              exists l0, v0. cbn [In]. repeat split; auto.
              intros Hc. apply H2. apply elem_of_union_r. exact Hc.
    + exists (Raise (KeyError "lead_id")), (existing_ids s). destruct s as [t ids el bb n].
      split; [reflexivity |]. split; [set_solver |]. intros rows' [=].
Qed.

(** What [save_batch] does in JSON mode and in flat-file mode: one write,
    whose failure is printed and followed by nothing. *)
Lemma save_batch_json_run (w : world) (sheet_mode : bool) (batch : list dict) (s : pstate) :
  batch <> [] ->
  let k := io_count s in
  let filename := "gmaps_outreach_" ++ clock w k ++ ".json" in
  save_batch w true sheet_mode batch s =
  (Ret tt,
   PState (trace s ++ [ SaveBatch batch;
                        WriteJson filename batch (io_fault w k);
                        Print (match io_fault w k with
                               | None => WroteFile (List.length batch) filename
                               | Some e => ErrorSavingJson e
                               end);
                        Print (SavedBatchJson (List.length batch)) ])
          (existing_ids s) (enriched_leads s) (batch_buffer s) (S k)).
Proof.
  intros Hne k filename. unfold save_batch.
  destruct batch as [|l rest] eqn:Hb; [congruence |]. rewrite <- Hb in *.
  unfold mbind, SE_bind. unfold emit at 1, se_modify at 1.
  rewrite save_to_json_run by exact Hne. p_unfold. p_step.
  rewrite <- !app_assoc. reflexivity.
Qed.

Lemma save_batch_csv_run (w : world) (batch : list dict) (s : pstate) :
  batch <> [] ->
  let k := io_count s in
  let filename := "gmaps_outreach_" ++ clock w k ++ ".csv" in
  save_batch w false false batch s =
  (Ret tt,
   PState (trace s ++ [ SaveBatch batch;
                        WriteCsv filename (map row_of batch) (io_fault w k);
                        Print (match io_fault w k with
                               | None => WroteFile (List.length batch) filename
                               | Some e => ErrorSavingCsv e
                               end);
                        Print (SavedBatchCsv (List.length batch)) ])
          (existing_ids s) (enriched_leads s) (batch_buffer s) (S k)).
Proof.
  intros Hne k filename. unfold save_batch.
  destruct batch as [|l rest] eqn:Hb; [congruence |]. rewrite <- Hb in *.
  unfold mbind, SE_bind. unfold emit at 1, se_modify at 1.
  rewrite save_to_csv_run by exact Hne. p_unfold. p_step.
  rewrite <- !app_assoc. reflexivity.
Qed.

Lemma save_batch_empty (w : world) (force_json sheet_mode : bool) (s : pstate) :
  save_batch w force_json sheet_mode [] s =
  (Ret tt, PState (trace s ++ [SaveBatch []]) (existing_ids s) (enriched_leads s)
                  (batch_buffer s) (io_count s)).
Proof. reflexivity. Qed.

(** Spreadsheet mode, by the outcome [r] of the row collection and of
    the append. *)
Lemma save_batch_sheet_run (w : world) (batch : list dict) (s : pstate) :
  batch <> [] ->
  let k := io_count s in
  exists r ids',
    existing_ids s ⊆ ids'
    /\ (forall rows', r = Ret rows' ->
          (forall l v, In l batch -> dict_get l "lead_id" = Some v -> py_str w v ∈ ids')
          /\ forall row, In row rows' ->
               exists l v, In l batch /\ row = row_of l /\ dict_get l "lead_id" = Some v
                           /\ py_str w v ∉ existing_ids s)
    /\ save_batch w false true batch s =
       match r with
       | Ret [] =>
           (Ret tt, PState (trace s ++ [SaveBatch batch]) ids' (enriched_leads s)
                           (batch_buffer s) k)
       | Ret new_rows =>
           match io_fault w k with
           | None =>
               (Ret tt,
                PState (trace s ++ [ SaveBatch batch; AppendRows new_rows None;
                                     Print (SavedBatchSheet (List.length new_rows)) ])
                       ids' (enriched_leads s) (batch_buffer s) (S k))
           | Some e =>
               let filename := "gmaps_outreach_" ++ clock w (S k) ++ ".csv" in
               (Ret tt,
                PState (trace s ++ [ SaveBatch batch; AppendRows new_rows (Some e);
                                     Print (ErrorSavingSheet e);
                                     WriteCsv filename (map row_of batch) (io_fault w (S k));
                                     Print (match io_fault w (S k) with
                                            | None => WroteFile (List.length batch) filename
                                            | Some e' => ErrorSavingCsv e'
                                            end) ])
                       ids' (enriched_leads s) (batch_buffer s) (S (S k)))
           end
       | Raise e =>
           let filename := "gmaps_outreach_" ++ clock w k ++ ".csv" in
           (Ret tt,
            PState (trace s ++ [ SaveBatch batch; Print (ErrorSavingSheet e);
                                 WriteCsv filename (map row_of batch) (io_fault w k);
                                 Print (match io_fault w k with
                                        | None => WroteFile (List.length batch) filename
                                        | Some e' => ErrorSavingCsv e'
                                        end) ])
                   ids' (enriched_leads s) (batch_buffer s) (S k))
       end.
Proof.
  intros Hne k.
  destruct (collect_new_rows_run w batch []
              (PState (trace s ++ [SaveBatch batch]) (existing_ids s) (enriched_leads s)
                      (batch_buffer s) (io_count s))) as (r & ids' & E & Hsub & Hrows).
  cbn [trace existing_ids enriched_leads batch_buffer io_count] in E, Hsub, Hrows.
  exists r, ids'. split; [exact Hsub |]. split.
  { intros rows' Hr. pose proof (Hrows rows' Hr) as (Hall & new & Hnew & Hin).
    cbn [app] in Hnew. subst new. auto. }
  unfold save_batch. destruct batch as [|l rest] eqn:Hb; [congruence |]. rewrite <- Hb in *.
  unfold mbind, SE_bind. unfold emit at 1, se_modify at 1. unfold try_except.
  unfold mbind, SE_bind. rewrite E. fold k.
  destruct r as [[|row rows]|e].
  - reflexivity.
  - p_unfold_core. p_step. fold k. destruct (io_fault w k) as [e|]; p_step.
    + rewrite save_to_csv_run by exact Hne. p_step. rewrite <- !app_assoc. reflexivity.
    + rewrite <- !app_assoc. reflexivity.
  - unfold emit at 1, se_modify at 1. p_step.
    rewrite save_to_csv_run by exact Hne. p_step. fold k.
    rewrite <- !app_assoc. reflexivity.
Qed.

(** ** C7: what a flush does when a write fails *)

(** C7, as stated, fails in JSON mode and in flat-file mode: the write
    fails, the failure is printed, and no second sink is tried. *)
Lemma flush_without_fallback :
  (exists s1,
      save_batch world_disk_full true false [record_acme] initial_state = (Ret tt, s1)
      /\ write_attempts (trace s1)
         = [WriteJson "gmaps_outreach_2024-05-01_12-00.json" [record_acme]
                      (Some (OtherError "No space left on device"))])
  /\ (exists s2,
      save_batch world_disk_full false false [record_acme] initial_state = (Ret tt, s2)
      /\ write_attempts (trace s2)
         = [WriteCsv "gmaps_outreach_2024-05-01_12-00.csv" [row_of record_acme]
                     (Some (OtherError "No space left on device"))]).
Proof. split; eexists; split; vm_compute; reflexivity. Qed.

(** C7, amended.  A flush never raises.  Whatever it writes, a failed
    write is followed by its printed error line.  Only a failed append
    to the spreadsheet has a fallback, exactly one write of the whole
    batch to a flat file; the flat file is also what is written when the
    rows cannot be built.  In JSON mode and in flat-file mode the single
    write has no fallback. *)
Theorem save_batch_never_raises (w : world) (force_json sheet_mode : bool)
    (batch : list dict) (s : pstate) :
  exists s' added,
    save_batch w force_json sheet_mode batch s = (Ret tt, s')
    /\ trace s' = (trace s ++ SaveBatch batch :: added)%list
    /\ (forall e line, In e (write_attempts added) -> failure_line e = Some line ->
                       In (Print line) added)
    /\ match write_attempts added with
       | [] => force_json = false /\ sheet_mode = true \/ batch = []
       | [AppendRows _ None] => force_json = false /\ sheet_mode = true
       | [AppendRows _ (Some _); WriteCsv _ rows _] =>
           force_json = false /\ sheet_mode = true /\ rows = map row_of batch
       | [WriteJson _ leads _] => force_json = true /\ leads = batch
       | [WriteCsv _ rows _] => force_json = false /\ rows = map row_of batch
       | _ => False
       end.
Proof.
  destruct batch as [|l0 rest0] eqn:Hb.
  { eexists _, []. rewrite save_batch_empty. split; [reflexivity |].
    split; [reflexivity |]. cbn. split; [intros e line [] | auto]. }
  rewrite <- Hb. assert (Hne : batch <> []) by (subst; discriminate).
  destruct force_json.
  - eexists _, _. rewrite save_batch_json_run by exact Hne. split; [reflexivity |].
    split; [reflexivity |]. cbn. split; [| auto].
    intros e line [<- | []]. destruct (io_fault w (io_count s)); cbn; [| discriminate].
    intros [= <-]. auto.
  - destruct sheet_mode.
    + destruct (save_batch_sheet_run w batch s Hne) as (r & ids' & _ & _ & E).
      rewrite E. clear E. destruct r as [[|row rows]|e].
      * eexists _, []. split; [reflexivity |]. split; [reflexivity |]. cbn.
        split; [intros e line [] | auto].
      * destruct (io_fault w (io_count s)) as [e|].
        -- eexists _, _. split; [reflexivity |]. split; [reflexivity |]. cbn.
           split; [| auto].
           intros e0 line [<- | [<- | []]]; cbn.
           ++ intros [= <-]. auto.
           ++ destruct (io_fault w (S (io_count s))); cbn; [| discriminate].
              intros [= <-]. auto.
        -- eexists _, _. split; [reflexivity |]. split; [reflexivity |]. cbn.
           split; [| auto]. intros e0 line [<- | []]. discriminate.
      * eexists _, _. split; [reflexivity |]. split; [reflexivity |]. cbn.
        split; [| auto].
        intros e0 line [<- | []]. destruct (io_fault w (io_count s)); cbn; [| discriminate].
        intros [= <-]. auto.
    + eexists _, _. rewrite save_batch_csv_run by exact Hne. split; [reflexivity |].
      split; [reflexivity |]. cbn. split; [| auto].
      intros e line [<- | []]. destruct (io_fault w (io_count s)); cbn; [| discriminate].
      intros [= <-]. auto.
Qed.

(** ** C9: offering a known lead again *)

Lemma sheet_rows_app (t1 t2 : list effect) :
  sheet_rows (t1 ++ t2) = (sheet_rows t1 ++ sheet_rows t2)%list.
Proof. unfold sheet_rows. now rewrite omap_app, concat_app. Qed.





(** ** Traces *)

Lemma save_calls_app (t1 t2 : list effect) :
  save_calls (t1 ++ t2) = (save_calls t1 ++ save_calls t2)%list.
Proof. apply omap_app. Qed.

Lemma progress_events_app (t1 t2 : list effect) :
  progress_events (t1 ++ t2) = (progress_events t1 ++ progress_events t2)%list.
Proof. apply omap_app. Qed.

Lemma save_calls_cons_batch (b : list dict) (t : list effect) :
  save_calls (SaveBatch b :: t) = b :: save_calls t.
Proof. reflexivity. Qed.

Lemma progress_events_cons_batch (b : list dict) (t : list effect) :
  progress_events (SaveBatch b :: t) = progress_events t.
Proof. reflexivity. Qed.

Lemma save_calls_sink (t : list effect) :
  Forall (fun e => is_sink_effect e = true) t -> save_calls t = [].
Proof.
  induction 1 as [|e t He _ IH]; [reflexivity |].
  destruct e; cbn in *; try discriminate; exact IH.
Qed.

Lemma progress_events_sink (t : list effect) :
  Forall (fun e => is_sink_effect e = true) t -> progress_events t = [].
Proof.
  induction 1 as [|e t He _ IH]; [reflexivity |].
  destruct e; cbn in *; try discriminate; exact IH.
Qed.

(** A flush touches neither the results nor the buffer, and adds to the
    trace its own call followed by effects of the sinks. *)
Lemma save_batch_frame (w : world) (force_json sheet_mode : bool) (batch : list dict)
    (s : pstate) :
  exists s' added,
    save_batch w force_json sheet_mode batch s = (Ret tt, s')
    /\ trace s' = (trace s ++ SaveBatch batch :: added)%list
    /\ Forall (fun e => is_sink_effect e = true) added
    /\ enriched_leads s' = enriched_leads s
    /\ batch_buffer s' = batch_buffer s.
Proof.
  destruct batch as [|l0 rest0] eqn:Hb.
  { eexists _, []. rewrite save_batch_empty. repeat split; auto. }
  rewrite <- Hb. assert (Hne : batch <> []) by (subst; discriminate).
  destruct force_json.
  - eexists _, _. rewrite save_batch_json_run by exact Hne.
    repeat split; repeat constructor.
  - destruct sheet_mode.
    + destruct (save_batch_sheet_run w batch s Hne) as (r & ids' & _ & _ & E).
      rewrite E. clear E. destruct r as [[|row rows]|e].
      * eexists _, []. repeat split; auto.
      * destruct (io_fault w (io_count s)) as [e|];
          eexists _, _; repeat split; repeat constructor.
      * eexists _, _. repeat split; repeat constructor.
    + eexists _, _. rewrite save_batch_csv_run by exact Hne.
      repeat split; repeat constructor.
Qed.

(** ** The pool *)

Lemma pick_order_Permutation {A} (sched : list nat) (fuel : nat) (pending : list A) :
  (List.length pending <= fuel)%nat -> Permutation (pick_order sched fuel pending) pending.
Proof.
  revert sched pending. induction fuel as [|f IH]; intros sched pending Hlen.
  - destruct pending; [constructor | cbn in Hlen; lia].
  - destruct pending as [|x0 rest]; [constructor |].
    cbn [pick_order].
    set (k := (hd O sched mod List.length (x0 :: rest))%nat).
    assert (Hk : (k < List.length (x0 :: rest))%nat).
    { apply Nat.mod_upper_bound. cbn. lia. }
    generalize dependent (x0 :: rest). intros pending Hlen k Hk.
    destruct (lookup_lt_is_Some_2 pending k Hk) as [y Hy].
    rewrite nth_lookup, Hy. cbn [default].
    rewrite (IH (tl sched)).
    + transitivity (take k pending ++ y :: drop (S k) pending)%list;
        [apply Permutation_middle |].
      rewrite (take_drop_middle pending k y Hy). reflexivity.
    + rewrite length_app, length_take, length_drop. lia.
Qed.

Lemma as_completed_Permutation {A} (sched : list nat) (futures : list A) :
  Permutation (as_completed sched futures) futures.
Proof. apply pick_order_Permutation. lia. Qed.

(** The futures of the pool all hold a record. *)
Lemma completed_futures_return (w : world) (sched : list nat) (query : string)
    (key : option string) (leads : list raw_lead) :
  exists rs,
    as_completed sched (map (fun lead => process_lead w lead query key) leads) = map Ret rs
    /\ List.length rs = List.length leads.
Proof.
  pose proof (as_completed_Permutation sched
                (map (fun lead => process_lead w lead query key) leads)) as HP.
  assert (Hall : Forall (fun f => exists r : dict, f = Ret r)
                        (as_completed sched
                           (map (fun lead => process_lead w lead query key) leads))).
  { eapply Permutation_Forall; [symmetry; exact HP |].
    apply List.Forall_forall. intros f Hf. apply List.in_map_iff in Hf.
    destruct Hf as (lead & <- & _).
    destruct (process_lead_run_returns w lead query key) as (rec & cs & E).
    exists rec. unfold process_lead. now rewrite E. }
  apply Permutation_length in HP. rewrite length_map in HP.
  revert HP Hall. generalize (as_completed sched
                                (map (fun lead => process_lead w lead query key) leads)).
  intros fs. revert leads. induction fs as [|f fs IH]; intros leads HP Hall.
  - exists []. split; [reflexivity | exact HP].
  - destruct leads as [|l leads]; [discriminate |].
    inversion Hall as [|? ? [r ->] Hall']; subst.
    destruct (IH leads) as (rs & -> & Hlen); [cbn in HP; lia | exact Hall' |].
    exists (r :: rs). split; [reflexivity | cbn; lia].
Qed.

Lemma zlen_snoc {A} (l : list A) (x : A) : zlen (l ++ [x]) = zlen l + 1.
Proof. unfold zlen. rewrite length_app. cbn. lia. Qed.

(** One completion: the result joins the results and the buffer; a full
    buffer is flushed as one batch and cleared. *)
Lemma on_completion_run (w : world) (force_json sheet_mode : bool) (total : Z) (r : dict)
    (s : pstate) :
  exists s',
    on_completion w force_json sheet_mode total (Ret r) s = (Ret tt, s')
    /\ enriched_leads s' = (enriched_leads s ++ [r])%list
    /\ progress_events (trace s')
       = (progress_events (trace s) ++
          let n := zlen (enriched_leads s ++ [r]) in
          if (n mod 5 =? 0) || (n =? total) then [(enriching, enrich_pct n total)] else [])%list
    /\ if BATCH_SIZE <=? zlen (batch_buffer s ++ [r]) then
         batch_buffer s' = []
         /\ save_calls (trace s') = (save_calls (trace s) ++ [batch_buffer s ++ [r]])%list
       else
         batch_buffer s' = (batch_buffer s ++ [r])%list
         /\ save_calls (trace s') = save_calls (trace s).
Proof.
  unfold on_completion. p_unfold_core. p_step.
  set (n := zlen (enriched_leads s ++ [r])).
  destruct ((n mod 5 =? 0) || (n =? total)); p_step;
    destruct (BATCH_SIZE <=? zlen (batch_buffer s ++ [r])); p_step.
  - match goal with
    | |- context [save_batch ?a ?b ?c ?d ?st] =>
        destruct (save_batch_frame a b c d st) as (s3 & added & E & Ht & Hsink & Hel & Hbb)
    end.
    rewrite E. p_step. cbn [trace enriched_leads] in Ht, Hel.
    eexists. split; [reflexivity |]. p_step. rewrite Ht, Hel.
    rewrite !progress_events_app, !save_calls_app.
    rewrite progress_events_cons_batch, save_calls_cons_batch.
    rewrite (progress_events_sink added Hsink), (save_calls_sink added Hsink).
    cbn. rewrite ?app_nil_r. auto.
  - eexists. split; [reflexivity |]. p_step.
    rewrite !progress_events_app, !save_calls_app. cbn. rewrite ?app_nil_r. auto.
  - match goal with
    | |- context [save_batch ?a ?b ?c ?d ?st] =>
        destruct (save_batch_frame a b c d st) as (s3 & added & E & Ht & Hsink & Hel & Hbb)
    end.
    rewrite E. p_step. cbn [trace enriched_leads] in Ht, Hel.
    eexists. split; [reflexivity |]. p_step. rewrite Ht, Hel.
    rewrite !progress_events_app, !save_calls_app.
    rewrite progress_events_cons_batch, save_calls_cons_batch.
    rewrite (progress_events_sink added Hsink), (save_calls_sink added Hsink).
    cbn. rewrite ?app_nil_r. auto.
  - eexists. split; [reflexivity |]. p_step. rewrite ?app_nil_r. auto.
Qed.

Lemma batches_cover_step (s s' : pstate) (r : dict) :
  batches_cover s ->
  enriched_leads s' = (enriched_leads s ++ [r])%list ->
  (if BATCH_SIZE <=? zlen (batch_buffer s ++ [r]) then
     batch_buffer s' = []
     /\ save_calls (trace s') = (save_calls (trace s) ++ [batch_buffer s ++ [r]])%list
   else
     batch_buffer s' = (batch_buffer s ++ [r])%list
     /\ save_calls (trace s') = save_calls (trace s)) ->
  batches_cover s'.
Proof.
  intros (Hcat & Hlt & Hall) Hel Hcase. unfold batches_cover.
  destruct (Z.leb_spec BATCH_SIZE (zlen (batch_buffer s ++ [r]))) as [Hge|Hsmall];
    destruct Hcase as (Hbb & Hsc); rewrite Hel, Hbb, Hsc.
  - rewrite concat_app. cbn [concat]. rewrite !app_nil_r, <- Hcat, app_assoc.
    split; [reflexivity |]. split; [unfold BATCH_SIZE, zlen; cbn; lia |].
    apply Forall_app. split; [exact Hall |]. constructor; [| constructor].
    split; [destruct (batch_buffer s); discriminate |].
    rewrite zlen_snoc. lia.
  - rewrite <- Hcat, app_assoc. auto.
Qed.

(** The loop over the completed futures. *)
Lemma pool_loop (w : world) (force_json sheet_mode : bool) (total : Z) (rs : list dict)
    (s : pstate) :
  batches_cover s ->
  exists s',
    for_each (on_completion w force_json sheet_mode total) (map Ret rs) s = (Ret tt, s')
    /\ batches_cover s'
    /\ enriched_leads s' = (enriched_leads s ++ rs)%list.
Proof.
  revert s. induction rs as [|r rs IH]; intros s Hinv.
  - exists s. split; [destruct s; reflexivity |]. split; [exact Hinv | now rewrite app_nil_r].
  - destruct (on_completion_run w force_json sheet_mode total r s)
      as (s1 & E1 & Hel & _ & Hcase).
    destruct (IH s1 (batches_cover_step s s1 r Hinv Hel Hcase)) as (s' & E & Hinv' & Hel').
    exists s'. split; [| split; [exact Hinv' |]].
    + cbn [map for_each]. unfold mbind, SE_bind. rewrite E1. exact E.
    + rewrite Hel', Hel, <- app_assoc. reflexivity.
Qed.

(** ** The stages *)

Lemma se_bind_run {S A B} (m : SE S A) (k : A -> SE S B) (s : S) :
  (m ≫= k) s = match m s with
               | (Ret a, s') => k a s'
               | (Raise e, s') => (Raise e, s')
               end.
Proof. reflexivity. Qed.

(** The scraping stage, by the outcome of its one or two searches. *)
Lemma scrape_stage_run (w : world) (c : config) (s : pstate) :
  scrape_stage w c s =
  match search w c (query_1 c) with
  | Raise e => (Raise e, with_trace s [Progress scraping 0 None])
  | Ret raw_leads =>
      if increase_radius c && (zlen raw_leads <? limit c) then
        match search w c (query_2 c) with
        | Raise e =>
            (Raise e, with_trace s [ Progress scraping 0 None;
                                     Progress scraping 50 (Some (zlen raw_leads));
                                     Progress scraping 60 None ])
        | Ret raw_leads_2 =>
            let merged := (raw_leads ++ merge_new (lead_ids raw_leads) raw_leads_2)%list in
            (Ret (py_slice_to merged (limit c)),
             with_trace s [ Progress scraping 0 None;
                            Progress scraping 50 (Some (zlen raw_leads));
                            Progress scraping 60 None;
                            Progress scraping 90 (Some (zlen merged));
                            Progress scraping 100 (Some (zlen merged)) ])
        end
      else
        (Ret (py_slice_to raw_leads (limit c)),
         with_trace s [ Progress scraping 0 None;
                        Progress scraping 50 (Some (zlen raw_leads));
                        Progress scraping 100 (Some (zlen raw_leads)) ])
  end.
Proof.
  unfold scrape_stage, with_trace. p_unfold_core. p_step.
  destruct (search w c (query_1 c)) as [raw_leads|e]; p_step; [| reflexivity].
  destruct (increase_radius c && (zlen raw_leads <? limit c)); p_step.
  - destruct (search w c (query_2 c)) as [raw_leads_2|e]; p_step;
      rewrite <- !app_assoc; reflexivity.
  - rewrite <- !app_assoc. reflexivity.
Qed.

(** Loading the known keys never raises and leaves at most a warning. *)
Lemma load_existing_run (w : world) (c : config) (s : pstate) :
  exists sheet_mode ids' logs,
    load_existing w c s
    = (Ret sheet_mode,
       PState (trace s ++ logs) ids' (enriched_leads s) (batch_buffer s) (io_count s))
    /\ Forall (fun e => is_sink_effect e = true) logs.
Proof.
  unfold load_existing.
  destruct (match sheet_url c with Some _ => true | None => false end
            && negb (force_csv c) && negb (force_json c)).
  - destruct (setup_sheet w (sheet_url c)).
    + destruct (get_all_records w) as [records|e]; p_unfold_core; p_step.
      * eexists _, _, []. rewrite app_nil_r. split; [reflexivity | constructor].
      * eexists _, _, [_]. split; [reflexivity | repeat constructor].
    + exists false, (existing_ids s), []. p_unfold_core. rewrite app_nil_r. destruct s.
      split; [reflexivity | constructor].
  - exists false, (existing_ids s), []. p_unfold_core. rewrite app_nil_r. destruct s.
    split; [reflexivity | constructor].
Qed.

(** The selection raises exactly when the scraping stage does; when it
    returns, nothing has been enriched, buffered or flushed yet. *)
Lemma select_leads_run (w : world) (c : config) (s : pstate) :
  match scrape_stage w c s with
  | (Raise e, s1) => select_leads w c s = (Raise e, s1)
  | (Ret raw_leads, s1) =>
      exists sheet_mode ids' logs,
        select_leads w c s
        = (Ret (sheet_mode, unique_raw_leads_of c ids' raw_leads),
           PState (trace s1 ++ logs) ids' (enriched_leads s1) (batch_buffer s1) (io_count s1))
        /\ Forall (fun e => is_sink_effect e = true) logs
  end.
Proof.
  unfold select_leads. rewrite se_bind_run.
  destruct (scrape_stage w c s) as [[raw_leads|e] s1]; [| reflexivity].
  destruct (load_existing_run w c s1) as (sheet_mode & ids' & logs & E & Hlogs).
  exists sheet_mode, ids', logs. split; [| exact Hlogs].
  rewrite se_bind_run, E. reflexivity.
Qed.

(** The enriching stage never raises; it hands every result to exactly
    one flush. *)
Lemma enrich_stage_run (w : world) (c : config) (sheet_mode : bool)
    (unique_raw_leads : list raw_lead) (s : pstate) :
  batches_cover s ->
  exists s' rs,
    enrich_stage w c sheet_mode unique_raw_leads s = (Ret tt, s')
    /\ as_completed (schedule w)
         (map (fun lead => process_lead w lead (query_1 c) (anthropic_key c)) unique_raw_leads)
       = map Ret rs
    /\ List.length rs = List.length unique_raw_leads
    /\ enriched_leads s' = (enriched_leads s ++ rs)%list
    /\ concat (save_calls (trace s')) = enriched_leads s'
    /\ Forall (fun b => b <> [] /\ zlen b <= BATCH_SIZE) (save_calls (trace s')).
Proof.
  intros Hinv.
  destruct (completed_futures_return w (schedule w) (query_1 c) (anthropic_key c)
              unique_raw_leads) as (rs & Hrs & Hlen).
  assert (Hinv0 : batches_cover (with_trace s [Progress enriching 0 None])).
  { destruct Hinv as (H1 & H2 & H3). unfold batches_cover, with_trace. cbn [trace
      batch_buffer enriched_leads]. rewrite save_calls_app. cbn. rewrite app_nil_r. auto. }
  destruct (pool_loop w (force_json c) sheet_mode (zlen unique_raw_leads) rs _ Hinv0)
    as (s1 & E1 & (Hcat & Hlt & Hall) & Hel).
  unfold enrich_stage. rewrite se_bind_run.
  change (progress_update enriching 0 None s)
    with (Ret tt, with_trace s [Progress enriching 0 None]).
  cbn beta iota zeta. rewrite Hrs, se_bind_run, E1, se_bind_run. unfold se_get. cbn [enriched_leads with_trace] in Hel.
  destruct (batch_buffer s1) as [|r0 rest] eqn:Hbb.
  - exists s1, rs. rewrite app_nil_r in Hcat. unfold mret, SE_ret. auto 10.
  - rewrite <- Hbb in *.
    destruct (save_batch_frame w (force_json c) sheet_mode (batch_buffer s1) s1)
      as (s2 & added & E2 & Ht & Hsink & Hel2 & Hbb2).
    exists s2, rs. rewrite E2, Hel2, Ht, save_calls_app, save_calls_cons_batch,
      (save_calls_sink added Hsink), concat_app.
    cbn [concat]. rewrite !app_nil_r.
    repeat split; auto.
    apply Forall_app. split; [exact Hall |]. constructor; [| constructor].
    split; [rewrite Hbb; discriminate | lia].
Qed.

Lemma scrape_stage_frame (w : world) (c : config) (s : pstate) :
  forall r s1, scrape_stage w c s = (r, s1) ->
  exists evs, s1 = with_trace s evs /\ save_calls evs = [].
Proof.
  intros r s1. rewrite scrape_stage_run.
  destruct (search w c (query_1 c)) as [raw_leads|e].
  - destruct (increase_radius c && (zlen raw_leads <? limit c)).
    + destruct (search w c (query_2 c)); intros [= <- <-]; eexists; split; reflexivity.
    + intros [= <- <-]. eexists. split; reflexivity.
  - intros [= <- <-]. eexists. split; reflexivity.
Qed.

(** The whole run, by the outcome of the selection. *)
Lemma run_gmaps_pipeline_run (w : world) (c : config) :
  match select_leads w c initial_state with
  | (Raise e, s0) =>
      run_gmaps_pipeline w c = (Raise e, s0)
      /\ save_calls (trace s0) = [] /\ enriched_leads s0 = []
  | (Ret (sheet_mode, unique_raw_leads), s0) =>
      exists st rs,
        run_gmaps_pipeline w c = (Ret rs, st)
        /\ as_completed (schedule w)
             (map (fun lead => process_lead w lead (query_1 c) (anthropic_key c))
                  unique_raw_leads)
           = map Ret rs
        /\ List.length rs = List.length unique_raw_leads
        /\ concat (save_calls (trace st)) = rs
        /\ Forall (fun b => b <> [] /\ zlen b <= BATCH_SIZE) (save_calls (trace st))
  end.
Proof.
  pose proof (select_leads_run w c initial_state) as Hsel.
  destruct (scrape_stage w c initial_state) as [[raw_leads|e] s1] eqn:Hscrape;
    destruct (scrape_stage_frame w c initial_state _ _ Hscrape) as (evs & -> & Hevs).
  - destruct Hsel as (sheet_mode & ids' & logs & Esel & Hlogs). rewrite Esel.
    cbn [with_trace initial_state trace existing_ids enriched_leads batch_buffer io_count]
      in Esel |- *.
    set (s0 := PState (([] ++ evs) ++ logs) ids' [] [] O) in *.
    assert (Hinv : batches_cover s0).
    { unfold batches_cover, s0. cbn [trace batch_buffer enriched_leads].
      rewrite !save_calls_app, Hevs, (save_calls_sink logs Hlogs). cbn.
      split; [reflexivity |]. split; [unfold BATCH_SIZE, zlen; cbn; lia | constructor]. }
    destruct (enrich_stage_run w c sheet_mode (unique_raw_leads_of c ids' raw_leads) s0 Hinv)
      as (s' & rs & E & Hrs & Hlen & Hel & Hcat & Hall).
    cbn [enriched_leads s0 app] in Hel.
    exists (with_trace s' [Progress finalizing 100 None]), rs.
    split.
    { unfold run_gmaps_pipeline, run_body. rewrite se_bind_run, Esel, se_bind_run, E.
      p_unfold_core. p_step. unfold with_trace. rewrite Hel. reflexivity. }
    split; [exact Hrs |]. split; [exact Hlen |].
    unfold with_trace. cbn [trace]. rewrite save_calls_app. cbn. rewrite app_nil_r.
    split; [congruence | exact Hall].
  - rewrite Hsel. split.
    + unfold run_gmaps_pipeline, run_body. now rewrite se_bind_run, Hsel.
    + unfold with_trace. cbn. auto.
Qed.

(** ** C1: every result is flushed once *)

(** C1.  In a run that returns, the batches handed to [save_batch], taken
    in call order and concatenated, are exactly the list of the workers'
    results in completion order: every result is in one batch, once,
    the last partial batch included; no batch is empty or larger than the
    threshold.  The results are those of the workers run on the leads
    that survived the filters.  A run that raises has flushed nothing
    and enriched nothing. *)
Theorem every_result_in_one_batch (w : world) (c : config) :
  match run_gmaps_pipeline w c with
  | (Ret res, st) =>
      concat (save_calls (trace st)) = res
      /\ Forall (fun b => b <> [] /\ zlen b <= BATCH_SIZE) (save_calls (trace st))
      /\ exists sheet_mode unique_raw_leads s0,
           select_leads w c initial_state = (Ret (sheet_mode, unique_raw_leads), s0)
           /\ map Ret res
              = as_completed (schedule w)
                  (map (fun lead => process_lead w lead (query_1 c) (anthropic_key c))
                       unique_raw_leads)
  | (Raise _, st) => save_calls (trace st) = [] /\ enriched_leads st = []
  end.
Proof.
  pose proof (run_gmaps_pipeline_run w c) as H.
  destruct (select_leads w c initial_state) as [[[sheet_mode unique]|e] s0] eqn:Hsel.
  - destruct H as (st & rs & -> & Hrs & _ & Hcat & Hall).
    split; [exact Hcat |]. split; [exact Hall |]. eauto.
  - destruct H as (-> & H1 & H2). auto.
Qed.

(** Twelve leads: a batch of ten in mid-run, the other two at the end. *)
Example run_twelve_leads :
  match run_gmaps_pipeline world_twelve config_twelve with
  | (Ret res, st) =>
      List.length res = 12%nat
      /\ map (@List.length dict) (save_calls (trace st)) = [10%nat; 2%nat]
      /\ progress_events (trace st)
         = [ (scraping, 0); (scraping, 50); (scraping, 100); (enriching, 0);
             (enriching, 41); (enriching, 83); (enriching, 100); (finalizing, 100) ]
  | (Raise _, _) => False
  end.
Proof. vm_compute. auto. Qed.

(** ** C2: the worker never raises *)



(** ** C3: when the orchestrator raises *)



(** ** C8: the progress protocol when nothing is left to enrich *)

Lemma enrich_stage_no_leads (w : world) (c : config) (sheet_mode : bool) (s : pstate) :
  batch_buffer s = [] ->
  enrich_stage w c sheet_mode [] s = (Ret tt, with_trace s [Progress enriching 0 None]).
Proof.
  intros Hbb. unfold enrich_stage. rewrite se_bind_run.
  change (progress_update enriching 0 None s)
    with (Ret tt, with_trace s [Progress enriching 0 None]).
  cbn beta iota zeta. cbn [map as_completed pick_order List.length for_each].
  unfold as_completed. cbn [pick_order List.length]. rewrite se_bind_run.
  cbn [for_each]. unfold mret at 1, SE_ret at 1. rewrite se_bind_run. unfold se_get.
  cbn [with_trace batch_buffer]. rewrite Hbb. reflexivity.
Qed.

(** Whenever no lead survives the filters, the enriching stage reports 0
    and nothing more: the next event is that of the finalizing stage. *)
Lemma run_without_leads (w : world) (c : config) :
  match select_leads w c initial_state with
  | (Ret (_, []), s0) =>
      run_gmaps_pipeline w c
      = (Ret (enriched_leads s0),
         with_trace s0 [Progress enriching 0 None; Progress finalizing 100 None])
  | _ => True
  end.
Proof.
  pose proof (select_leads_run w c initial_state) as Hsel.
  destruct (scrape_stage w c initial_state) as [[raw_leads|e] s1] eqn:Hscrape;
    [| now rewrite Hsel].
  destruct (scrape_stage_frame w c initial_state _ _ Hscrape) as (evs & -> & _).
  destruct Hsel as (sm & ids' & logs & Hsel & _). rewrite Hsel.
  destruct (unique_raw_leads_of c ids' raw_leads) eqn:Hu; [| exact I].
  unfold run_gmaps_pipeline, run_body. rewrite se_bind_run, Hsel.
  rewrite se_bind_run, enrich_stage_no_leads by reflexivity.
  p_unfold_core. p_step. unfold with_trace. cbn [trace existing_ids enriched_leads
    batch_buffer io_count]. rewrite <- !app_assoc. reflexivity.
Qed.

(** C8.  A run in which the search finds nothing: the enriching stage
    reports 0 and the finalizing stage follows; the last event of the
    enriching stage does not carry 100. *)
Theorem enriching_stage_ends_at_zero :
  exists st,
    run_gmaps_pipeline world_quiet config_austin = (Ret [], st)
    /\ progress_events (trace st)
       = [ (scraping, 0); (scraping, 50); (scraping, 100);
           (enriching, 0); (finalizing, 100) ].
Proof. eexists. split; vm_compute; reflexivity. Qed.

(* ===================================================================== *)
(** * Further properties of the code                                     *)
(* ===================================================================== *)

(** ** The key *)

Lemma le_bytes_length (n : nat) (x : Z) : List.length (le_bytes n x) = n.
Proof. revert x. induction n as [|n IH]; intros x; cbn; [reflexivity | now rewrite IH]. Qed.

Lemma le_bytes_range (n : nat) (x : Z) : Forall (fun b => 0 <= b < 256) (le_bytes n x).
Proof.
  revert x. induction n as [|n IH]; intros x; cbn; constructor; [| apply IH].
  apply Z.mod_pos_bound. lia.
Qed.

Lemma md5_digest_shape (msg : list Z) :
  List.length (md5_digest msg) = 16%nat /\ Forall (fun b => 0 <= b < 256) (md5_digest msg).
Proof.
  unfold md5_digest.
  destruct (fold_left md5_block _ md5_init) as [a b c d].
  split.
  - rewrite !length_app, !le_bytes_length. reflexivity.
  - repeat (apply Forall_app; split); apply le_bytes_range.
Qed.

Lemma hex_digit_is_hex (z : Z) : 0 <= z < 16 -> is_hex_c (hex_digit z) = true.
Proof.
  intros Hz.
  assert (H : z = 0 \/ z = 1 \/ z = 2 \/ z = 3 \/ z = 4 \/ z = 5 \/ z = 6 \/ z = 7 \/
              z = 8 \/ z = 9 \/ z = 10 \/ z = 11 \/ z = 12 \/ z = 13 \/ z = 14 \/ z = 15)
    by lia.
  repeat (destruct H as [-> | H]; [reflexivity |]). subst z. reflexivity.
Qed.

Lemma hex_of_bytes_shape (bs : list Z) :
  Forall (fun b => 0 <= b < 256) bs ->
  String.length (hex_of_bytes bs) = (2 * List.length bs)%nat
  /\ sall is_hex_c (hex_of_bytes bs) = true.
Proof.
  induction 1 as [|b bs Hb _ [IHl IHh]]; [split; reflexivity |].
  cbn [hex_of_bytes String.length sall List.length]. split; [lia |].
  rewrite IHh, !hex_digit_is_hex; [reflexivity | |].
  - apply Z.mod_pos_bound. lia.
  - split; [apply Z.div_pos; lia | apply Z.div_lt_upper_bound; lia].
Qed.

(** The key of any name and address, missing or not, is a string of 32
    lower-case hexadecimal digits. *)
Theorem get_lead_id_shape (name address : option string) :
  String.length (get_lead_id name address) = 32%nat
  /\ sall is_hex_c (get_lead_id name address) = true.
Proof.
  unfold get_lead_id, md5_hexdigest.
  destruct (md5_digest_shape (encode (text_str name ++ "|" ++ text_str address)))
    as [Hlen Hrange].
  destruct (hex_of_bytes_shape _ Hrange) as [Hl Hh]. rewrite Hl, Hlen. auto.
Qed.

(** ** Merging the radius expansion *)

Lemma merge_new_spec (seen : gset string) (raw_leads_2 : list raw_lead) :
  NoDup (map lead_key (merge_new seen raw_leads_2))
  /\ (forall l, In l (merge_new seen raw_leads_2) -> In l raw_leads_2 /\ lead_key l ∉ seen)
  /\ (forall l, In l raw_leads_2 ->
        lead_key l ∈ seen \/ In (lead_key l) (map lead_key (merge_new seen raw_leads_2))).
Proof.
  revert seen. induction raw_leads_2 as [|l rest IH]; intros seen; cbn [merge_new].
  - split; [constructor |]. split; intros l [].
  - fold (lead_key l). case_bool_decide as Hin.
    + destruct (IH seen) as (Hnd & Hsub & Hcov). split; [exact Hnd |]. split.
      * intros l0 Hl0. destruct (Hsub l0 Hl0). cbn [In]. auto.
      * intros l0 [<- | Hl0]; [left; exact Hin | apply Hcov, Hl0].
    + destruct (IH ({[ lead_key l ]} ∪ seen)) as (Hnd & Hsub & Hcov).
      split; [| split].
      * cbn [map]. constructor; [| exact Hnd].
        rewrite list_elem_of_In. intros Hk. apply List.in_map_iff in Hk.
        destruct Hk as (l0 & Hk & Hl0). destruct (Hsub l0 Hl0) as [_ Hn].
        apply Hn. rewrite Hk. apply elem_of_union_l, elem_of_singleton_2. reflexivity.
      * intros l0 [<- | Hl0]; [cbn [In]; auto |].
        destruct (Hsub l0 Hl0) as [Hi Hn]. cbn [In]. split; [auto |].
        intros Hs. apply Hn. apply elem_of_union_r. exact Hs.
      * intros l0 [<- | Hl0]; [right; cbn [map In]; auto |].
        destruct (Hcov l0 Hl0) as [Hs | Hm]; [| right; cbn [map In]; auto].
        apply elem_of_union in Hs. destruct Hs as [Hs | Hs]; [| left; exact Hs].
        apply elem_of_singleton_1 in Hs. right. cbn [map In]. auto.
Qed.

Lemma lead_ids_spec (ls : list raw_lead) (k : string) :
  k ∈ lead_ids ls <-> In k (map lead_key ls).
Proof.
  unfold lead_ids. rewrite elem_of_list_to_set, list_elem_of_In. reflexivity.
Qed.

(** When the first search has no two leads with the same key, the merged
    list has none either; whatever the first search returned, the leads
    that the expansion adds come from the second search, have pairwise
    different keys, none of them a key of the first search, and every
    lead of the second search has its key in the merged list. *)
Theorem expansion_adds_only_new_keys (raw_leads raw_leads_2 : list raw_lead) :
  let added := merge_new (lead_ids raw_leads) raw_leads_2 in
  NoDup (map lead_key added)
  /\ (forall l, In l added -> In l raw_leads_2 /\ ~ In (lead_key l) (map lead_key raw_leads))
  /\ (forall l, In l raw_leads_2 -> In (lead_key l) (map lead_key (raw_leads ++ added)))
  /\ (NoDup (map lead_key raw_leads) -> NoDup (map lead_key (raw_leads ++ added))).
Proof.
  intros added. destruct (merge_new_spec (lead_ids raw_leads) raw_leads_2)
    as (Hnd & Hsub & Hcov). fold added in Hnd, Hsub, Hcov.
  split; [exact Hnd |]. split; [| split].
  - intros l Hl. destruct (Hsub l Hl) as [Hi Hn]. split; [exact Hi |].
    now rewrite <- lead_ids_spec.
  - intros l Hl. rewrite map_app, List.in_app_iff.
    destruct (Hcov l Hl) as [Hs | Hm]; [left; now rewrite <- lead_ids_spec | right; exact Hm].
  - intros Hfirst. rewrite map_app. apply NoDup_app. split; [exact Hfirst |].
    split; [| exact Hnd].
    intros k Hk Hk'. rewrite list_elem_of_In in Hk, Hk'.
    apply List.in_map_iff in Hk'. destruct Hk' as (l & <- & Hl).
    destruct (Hsub l Hl) as [_ Hn]. apply Hn. now rewrite lead_ids_spec.
Qed.

(** ** The two filters *)

Lemma filter_twice {A} (f g : A -> bool) (l : list A) :
  List.filter f (List.filter g l) = List.filter (fun x => g x && f x) l.
Proof.
  induction l as [|x l IH]; [reflexivity |]. cbn [List.filter].
  destruct (g x); cbn [andb List.filter]; [destruct (f x) |]; now rewrite IH.
Qed.

Lemma filter_leads_fst (target : option string) (existing : gset string)
    (raw_leads : list raw_lead) :
  fst (filter_leads target existing raw_leads)
  = List.filter (fun l => negb (location_skip target l)
                          && negb (bool_decide (lead_key l ∈ existing))) raw_leads.
Proof.
  induction raw_leads as [|l rest IH]; [reflexivity |]. cbn [filter_leads List.filter].
  destruct (filter_leads target existing rest) as [kept skipped]. cbn [fst] in IH.
  fold (lead_key l). destruct (location_skip target l); cbn [negb andb fst]; [exact IH |].
  destruct (bool_decide (lead_key l ∈ existing)); cbn [negb fst]; [exact IH |].
  now rewrite IH.
Qed.

Lemma filter_leads_snd (target : option string) (existing : gset string)
    (raw_leads : list raw_lead) :
  snd (filter_leads target existing raw_leads)
  = List.length (List.filter (location_skip target) raw_leads).
Proof.
  induction raw_leads as [|l rest IH]; [reflexivity |]. cbn [filter_leads List.filter].
  destruct (filter_leads target existing rest) as [kept skipped]. cbn [snd] in IH.
  destruct (location_skip target l); cbn [snd List.length]; [now rewrite IH |].
  destruct (bool_decide _); exact IH.
Qed.

Lemma filter_three_way {A} (a b : A -> bool) (l : list A) :
  List.length l
  = (List.length (List.filter (fun x => a x && b x) l)
     + List.length (List.filter (fun x => negb (a x)) l)
     + List.length (List.filter (fun x => a x && negb (b x)) l))%nat.
Proof.
  induction l as [|x l IH]; [reflexivity |]. cbn [List.filter List.length].
  destruct (a x), (b x); cbn [andb negb List.length]; lia.
Qed.

(** The loop of the two filters keeps, in the provider's order, the leads
    that pass the state filter and whose key is not known; the two tests
    can be made in either order; the number of leads, of kept leads and
    the two counts printed on line 373 add up. *)
Theorem filter_leads_as_filters (target : option string) (existing : gset string)
    (raw_leads : list raw_lead) :
  let unknown := fun l => negb (bool_decide (lead_key l ∈ existing)) in
  let in_state := fun l => negb (location_skip target l) in
  let kept := fst (filter_leads target existing raw_leads) in
  let skipped_location := snd (filter_leads target existing raw_leads) in
  kept = List.filter unknown (List.filter in_state raw_leads)
  /\ kept = List.filter in_state (List.filter unknown raw_leads)
  /\ skipped_location = List.length (List.filter (location_skip target) raw_leads)
  /\ (List.length raw_leads
      = List.length kept + skipped_location
        + List.length (List.filter (fun l => in_state l && negb (unknown l)) raw_leads))%nat.
Proof.
  intros unknown in_state kept skipped_location.
  unfold kept, skipped_location. rewrite filter_leads_fst, filter_leads_snd, !filter_twice.
  split; [reflexivity |]. split.
  - apply List.filter_ext. intros l. apply andb_comm.
  - split; [reflexivity |].
    rewrite (filter_three_way in_state unknown raw_leads) at 1.
    do 2 f_equal. f_equal. apply List.filter_ext. intros l. unfold in_state.
    now rewrite negb_involutive.
Qed.

(** ** The selection of the leads *)

Lemma py_slice_to_length {A} (l : list A) (n : Z) : 0 <= n -> zlen (py_slice_to l n) <= n.
Proof.
  intros Hn. unfold py_slice_to, zlen. destruct (Z.leb_spec 0 n) as [_|]; [| lia].
  rewrite length_firstn. lia.
Qed.

Lemma scrape_stage_sliced (w : world) (c : config) (s s1 : pstate) (raw : list raw_lead) :
  scrape_stage w c s = (Ret raw, s1) -> exists full, raw = py_slice_to full (limit c).
Proof.
  rewrite scrape_stage_run. destruct (search w c (query_1 c)) as [r1|e]; [| discriminate].
  destruct (increase_radius c && (zlen r1 <? limit c)).
  - destruct (search w c (query_2 c)); [| discriminate]. intros [= <- _]. eauto.
  - intros [= <- _]. eauto.
Qed.

Lemma select_leads_inv (w : world) (c : config) (sheet_mode : bool) (unique : list raw_lead)
    (s0 : pstate) :
  select_leads w c initial_state = (Ret (sheet_mode, unique), s0) ->
  exists raw s1,
    scrape_stage w c initial_state = (Ret raw, s1)
    /\ unique = unique_raw_leads_of c (existing_ids s0) raw.
Proof.
  intros Hsel. pose proof (select_leads_run w c initial_state) as H.
  destruct (scrape_stage w c initial_state) as [[raw|e] s1]; [| congruence].
  destruct H as (sm & ids' & logs & E & _). rewrite E in Hsel.
  injection Hsel as _ <- <-. eauto.
Qed.

Lemma unique_raw_leads_length (c : config) (existing : gset string) (raw : list raw_lead) :
  (List.length (unique_raw_leads_of c existing raw) <= List.length raw)%nat.
Proof. unfold unique_raw_leads_of. rewrite filter_leads_fst. apply List.filter_length_le. Qed.

(** With a limit that is not negative, a run never returns more records
    than the limit, radius expansion or not. *)
Theorem run_returns_at_most_limit (w : world) (c : config) (Hlimit : 0 <= limit c) :
  match run_gmaps_pipeline w c with
  | (Ret res, _) => zlen res <= limit c
  | (Raise _, _) => True
  end.
Proof.
  pose proof (run_gmaps_pipeline_run w c) as H.
  destruct (select_leads w c initial_state) as [[[sm unique]|e] s0] eqn:Hsel.
  - destruct H as (st & rs & -> & _ & Hlen & _).
    destruct (select_leads_inv w c sm unique s0 Hsel) as (raw & s1 & Hscrape & ->).
    destruct (scrape_stage_sliced w c _ _ _ Hscrape) as (full & ->).
    pose proof (py_slice_to_length full (limit c) Hlimit) as Hs.
    pose proof (unique_raw_leads_length c (existing_ids s0) (py_slice_to full (limit c))).
    unfold zlen in *. lia.
  - destruct H as (-> & _). exact I.
Qed.

Lemma run_returns_at_most_limit_witness :
  0 <= limit config_austin
  /\ match run_gmaps_pipeline world_twelve config_austin with
     | (Ret res, _) => zlen res <= limit config_austin
     | (Raise _, _) => True
     end.
Proof.
  split; [discriminate |]. apply run_returns_at_most_limit. discriminate.
Defined.

Lemma load_existing_file_mode (w : world) (c : config) (s : pstate) :
  file_mode c = true -> load_existing w c s = (Ret false, s).
Proof.
  unfold file_mode, load_existing. intros H. apply negb_true_iff in H. rewrite H.
  destruct s. reflexivity.
Qed.

(** When the output goes to a file, no key is known when the leads are
    selected: every lead of the sliced search result that passes the
    state filter is enriched, whatever earlier runs have written. *)
Theorem file_mode_knows_no_key (w : world) (c : config) (Hmode : file_mode c = true) :
  match scrape_stage w c initial_state with
  | (Ret raw_leads, s1) =>
      select_leads w c initial_state
      = (Ret (false, List.filter (fun l => negb (location_skip (parse_target_state (location c))
                                                               l)) raw_leads), s1)
  | (Raise e, s1) => select_leads w c initial_state = (Raise e, s1)
  end.
Proof.
  unfold select_leads. rewrite se_bind_run.
  destruct (scrape_stage_frame w c initial_state (fst (scrape_stage w c initial_state))
              (snd (scrape_stage w c initial_state))) as (evs & Hs1 & _).
  { now destruct (scrape_stage w c initial_state). }
  destruct (scrape_stage w c initial_state) as [[raw|e] s1]; [| reflexivity].
  cbn [snd] in Hs1. subst s1.
  rewrite se_bind_run, load_existing_file_mode by exact Hmode.
  rewrite se_bind_run. unfold se_get, mret, SE_ret. do 3 f_equal.
  unfold unique_raw_leads_of. rewrite filter_leads_fst.
  apply List.filter_ext. intros l. cbn [with_trace existing_ids initial_state].
  rewrite bool_decide_eq_false_2 by apply not_elem_of_empty. apply andb_true_r.
Qed.

Lemma file_mode_knows_no_key_witness :
  file_mode config_austin = true
  /\ match scrape_stage world_twelve config_austin initial_state with
     | (Ret raw_leads, s1) =>
         select_leads world_twelve config_austin initial_state
         = (Ret (false,
                 List.filter (fun l => negb (location_skip
                                               (parse_target_state (location config_austin)) l))
                             raw_leads), s1)
     | (Raise e, s1) => select_leads world_twelve config_austin initial_state = (Raise e, s1)
     end.
Proof.
  split; [reflexivity |]. apply file_mode_knows_no_key. reflexivity.
Defined.

(** In spreadsheet mode, when the sheet opens and its records load, no
    lead whose key is in the sheet's [lead_id] column is enriched. *)
Theorem sheet_mode_skips_known_keys (w : world) (c : config) (records : list dict)
    (Hmode : file_mode c = false)
    (Hcred : credentials_exist w = true)
    (Hopen : gspread_open w (sheet_url c) = Ret tt)
    (Hrecords : get_all_records w = Ret records) :
  match select_leads w c initial_state with
  | (Ret (sheet_mode, unique_raw_leads), s0) =>
      sheet_mode = true
      /\ forall lead, In lead unique_raw_leads -> ~ In (lead_key lead) (sheet_keys w records)
  | (Raise _, _) => True
  end.
Proof.
  destruct (select_leads w c initial_state) as [[[sm unique]|e] s0] eqn:Hsel; [| exact I].
  pose proof Hsel as Hsel'. unfold select_leads in Hsel'. rewrite se_bind_run in Hsel'.
  destruct (scrape_stage w c initial_state) as [[raw|e] s1]; [| discriminate].
  rewrite se_bind_run in Hsel'. unfold load_existing in Hsel'.
  unfold file_mode in Hmode. apply negb_false_iff in Hmode. rewrite Hmode in Hsel'.
  unfold setup_sheet in Hsel'. rewrite Hcred, Hopen, Hrecords in Hsel'.
  cbn [negb] in Hsel'. revert Hsel'. p_unfold_core. p_step. intros [= <- <- _].
  split; [reflexivity |]. intros lead Hin Hk.
  unfold unique_raw_leads_of in Hin. apply filter_leads_In in Hin.
  destruct Hin as (_ & _ & Hn). apply Hn. fold (lead_key lead).
  apply elem_of_list_to_set, list_elem_of_In. exact Hk.
Qed.

Lemma sheet_mode_skips_known_keys_witness :
  match select_leads world_sheet_knows_acme config_sheet initial_state with
  | (Ret (sheet_mode, unique_raw_leads), s0) =>
      sheet_mode = true
      /\ forall lead, In lead unique_raw_leads ->
           ~ In (lead_key lead) (sheet_keys world_sheet_knows_acme [record_acme])
  | (Raise _, _) => True
  end.
Proof.
  exact (sheet_mode_skips_known_keys world_sheet_knows_acme config_sheet [record_acme]
           eq_refl eq_refl eq_refl eq_refl).
Defined.

Example sheet_run_skips_acme :
  match run_gmaps_pipeline world_sheet_knows_acme config_sheet with
  | (Ret res, st) =>
      map (fun r => dict_get r "business_name") res = [Some (PyStr "Empire Plumbing")]
      /\ List.length (sheet_rows (trace st)) = 1%nat
  | (Raise _, _) => False
  end.
Proof. vm_compute. auto. Qed.

(** ** The record a worker returns *)

Ltac shape_leaf n :=
  eexists _, _, n; split; [reflexivity |];
  split; [cbn; tauto |]; split; [reflexivity |]; split; reflexivity.

(** Whatever the extraction collaborator returns or raises, the record
    starts with the eleven fields built from the raw lead and the query,
    unchanged, followed by a prefix of the enrichment fields in the order
    of their assignment: none of them, the e-mails alone, the first
    seven, or all nine.  The collaborator is called once when the lead
    has a web site and not at all otherwise. *)
Theorem process_lead_record_shape (w : world) (lead : raw_lead) (query : string)
    (key : option string) :
  exists rec cs n,
    process_lead_run w lead query key = (Ret rec, WState rec cs)
    /\ In n [0; 1; 7; 9]%nat
    /\ firstn 11 rec = base_record lead query
    /\ map fst rec = (map fst (base_record lead query) ++ firstn n enrichment_fields)%list
    /\ extract_calls cs = if text_truthy (raw_website lead)
                          then [(raw_website lead, raw_name lead)] else [].
Proof.
  unfold process_lead_run. destruct (text_truthy (raw_website lead)); [| shape_leaf 0%nat].
  w_unfold. w_step.
  destruct (extract_contacts w (raw_website lead) (raw_name lead) key) as [data|e];
    w_step; [| shape_leaf 0%nat].
  destruct data as [| | | | |xs|kvs]; w_step; try shape_leaf 0%nat.
  destruct (py_join ", " (py_or (dict_get_default kvs "emails" PyNone) (PyList [])))
    as [joined|e]; w_step; [| shape_leaf 0%nat].
  destruct (py_or (dict_get_default kvs "social_media" PyNone) (PyDict []))
    as [| | | | |xs|social]; w_step; try shape_leaf 1%nat.
  destruct (py_or (dict_get_default kvs "owner_info" PyNone) (PyDict []))
    as [| | | | |xs|owner]; w_step; try shape_leaf 7%nat.
  rewrite (dict_get_set_ne _ "owner_title" "owner_name") by discriminate.
  rewrite dict_get_set_eq.
  destruct (truthy (dict_get_default owner "name" PyNone)); w_step; [shape_leaf 9%nat |].
  destruct (truthy (dict_get_default owner "email" PyNone)); w_step; [shape_leaf 9%nat |].
  unfold dict_get_default.
  repeat rewrite (dict_get_set_ne _ _ "emails") by discriminate.
  rewrite dict_get_set_eq.
  destruct (truthy (PyStr joined)); w_step; [| shape_leaf 9%nat].
  repeat rewrite (dict_get_set_ne _ _ "emails") by discriminate.
  rewrite dict_get_set_eq. w_step. shape_leaf 9%nat.
Qed.

(** When the extraction returns the empty dictionary, as it does for a
    site that cannot be fetched, the record carries every enrichment
    field with an empty value: the empty string for the e-mails and the
    summary, [False] for the two pixel flags, [None] for the others; no
    name inference is tried. *)
Theorem process_lead_empty_extraction (w : world) (lead : raw_lead) (query : string)
    (key : option string)
    (Hsite : text_truthy (raw_website lead) = true)
    (Hdata : extract_contacts w (raw_website lead) (raw_name lead) key = Ret (PyDict [])) :
  exists cs,
    process_lead_run w lead query key
    = (Ret (base_record lead query ++ empty_enrichment)%list,
       WState (base_record lead query ++ empty_enrichment)%list cs)
    /\ infer_calls cs = []
    /\ Forall (fun k => present_and_empty (base_record lead query ++ empty_enrichment)%list k
                        = true) enrichment_fields.
Proof.
  unfold process_lead_run. rewrite Hsite. w_unfold. w_step. rewrite Hdata. w_step.
  eexists. split; [reflexivity |]. split; [reflexivity |]. repeat constructor.
Qed.

Lemma process_lead_empty_extraction_witness :
  exists cs,
    process_lead_run world_quiet lead_acme "plumbers in Austin, TX" None
    = (Ret (base_record lead_acme "plumbers in Austin, TX" ++ empty_enrichment)%list,
       WState (base_record lead_acme "plumbers in Austin, TX" ++ empty_enrichment)%list cs)
    /\ infer_calls cs = []
    /\ Forall (fun k => present_and_empty
                          (base_record lead_acme "plumbers in Austin, TX"
                           ++ empty_enrichment)%list k = true) enrichment_fields.
Proof.
  exact (process_lead_empty_extraction world_quiet lead_acme "plumbers in Austin, TX" None
           eq_refl eq_refl).
Defined.

(** ** The progress protocol *)




(** ** What reaches the files *)

Lemma scrape_stage_events (w : world) (c : config) (s : pstate) :
  forall r s1, scrape_stage w c s = (r, s1) ->
  exists evs, s1 = with_trace s evs /\ Forall (fun e => is_progress e = true) evs.
Proof.
  intros r s1. rewrite scrape_stage_run.
  destruct (search w c (query_1 c)) as [raw_leads|e].
  - destruct (increase_radius c && (zlen raw_leads <? limit c)).
    + destruct (search w c (query_2 c)); intros [= <- <-]; eexists;
        (split; [reflexivity | repeat constructor]).
    + intros [= <- <-]. eexists. split; [reflexivity | repeat constructor].
  - intros [= <- <-]. eexists. split; [reflexivity | repeat constructor].
Qed.

Section FlushedOutput.

(** [F] reads from a trace what one kind of sink has received, [G] is
    what a list of records looks like there. *)
Context {X : Type}.
Variables (w : world) (force_json sheet_mode : bool).
Variable F : list effect -> list X.
Variable G : list dict -> list X.

Hypothesis F_app : forall t1 t2, F (t1 ++ t2) = (F t1 ++ F t2)%list.
Hypothesis F_nil : F [] = [].
Hypothesis F_progress : forall st pct leads, F [Progress st pct leads] = [].
Hypothesis G_app : forall a b, G (a ++ b) = (G a ++ G b)%list.
Hypothesis G_nil : G [] = [].
Hypothesis F_flush : forall batch s,
  F (trace (snd (save_batch w force_json sheet_mode batch s)))
  = (F (trace s) ++ G batch)%list.

Lemma F_progress_events (evs : list effect) :
  Forall (fun e => is_progress e = true) evs -> F evs = [].
Proof using F_app F_nil F_progress.
  induction 1 as [|e evs He _ IH]; [exact F_nil |].
  change (e :: evs) with ([e] ++ evs)%list. rewrite F_app, IH.
  destruct e; try discriminate. now rewrite F_progress.
Qed.

Lemma on_completion_output (total : Z) (r : dict) (s : pstate) :
  (F (trace s) ++ G (batch_buffer s))%list = G (enriched_leads s) ->
  exists s',
    on_completion w force_json sheet_mode total (Ret r) s = (Ret tt, s')
    /\ (F (trace s') ++ G (batch_buffer s'))%list = G (enriched_leads s').
Proof using F_app F_progress G_app G_nil F_flush.
  intros Hinv. unfold on_completion. p_unfold_core. p_step.
  set (n := zlen (enriched_leads s ++ [r])).
  destruct ((n mod 5 =? 0) || (n =? total)); p_step;
    destruct (BATCH_SIZE <=? zlen (batch_buffer s ++ [r])); p_step.
  - match goal with
    | |- context [save_batch ?a ?b ?c ?d ?st] =>
        pose proof (F_flush d st) as Hf;
        destruct (save_batch_frame a b c d st) as (s3 & added & E & _ & _ & Hel & _)
    end.
    rewrite E in Hf |- *. cbn [snd trace enriched_leads] in Hf, Hel. p_step.
    eexists. split; [reflexivity |]. p_step.
    rewrite Hf, Hel, F_app, F_progress, G_nil, !G_app, !app_nil_r, <- Hinv.
    now rewrite app_assoc.
  - eexists. split; [reflexivity |]. p_step.
    rewrite F_app, F_progress, app_nil_r, !G_app, <- Hinv. now rewrite app_assoc.
  - match goal with
    | |- context [save_batch ?a ?b ?c ?d ?st] =>
        pose proof (F_flush d st) as Hf;
        destruct (save_batch_frame a b c d st) as (s3 & added & E & _ & _ & Hel & _)
    end.
    rewrite E in Hf |- *. cbn [snd trace enriched_leads] in Hf, Hel. p_step.
    eexists. split; [reflexivity |]. p_step.
    rewrite Hf, Hel, G_nil, !G_app, !app_nil_r, <- Hinv. now rewrite app_assoc.
  - eexists. split; [reflexivity |]. p_step.
    rewrite !G_app, <- Hinv. now rewrite app_assoc.
Qed.

Lemma pool_loop_output (total : Z) (rs : list dict) (s : pstate) :
  (F (trace s) ++ G (batch_buffer s))%list = G (enriched_leads s) ->
  exists s',
    for_each (on_completion w force_json sheet_mode total) (map Ret rs) s = (Ret tt, s')
    /\ (F (trace s') ++ G (batch_buffer s'))%list = G (enriched_leads s').
Proof using F_app F_progress G_app G_nil F_flush.
  revert s. induction rs as [|r rs IH]; intros s Hinv.
  - exists s. split; [destruct s; reflexivity | exact Hinv].
  - destruct (on_completion_output total r s Hinv) as (s1 & E1 & Hinv1).
    destruct (IH s1 Hinv1) as (s' & E & Hinv').
    exists s'. split; [| exact Hinv'].
    cbn [map for_each]. rewrite se_bind_run, E1. exact E.
Qed.

End FlushedOutput.

Section FileOutput.

Context {X : Type}.
Variables (w : world) (c : config).
Variable F : list effect -> list X.
Variable G : list dict -> list X.

Hypothesis Hload : forall s, load_existing w c s = (Ret false, s).
Hypothesis F_app : forall t1 t2, F (t1 ++ t2) = (F t1 ++ F t2)%list.
Hypothesis F_nil : F [] = [].
Hypothesis F_progress : forall st pct leads, F [Progress st pct leads] = [].
Hypothesis G_app : forall a b, G (a ++ b) = (G a ++ G b)%list.
Hypothesis G_nil : G [] = [].
Hypothesis F_flush : forall batch s,
  F (trace (snd (save_batch w (force_json c) false batch s)))
  = (F (trace s) ++ G batch)%list.

Lemma enrich_stage_output (unique_raw_leads : list raw_lead) (s : pstate) :
  (F (trace s) ++ G (batch_buffer s))%list = G (enriched_leads s) ->
  exists s',
    enrich_stage w c false unique_raw_leads s = (Ret tt, s')
    /\ F (trace s') = G (enriched_leads s').
Proof using F_app F_progress G_app G_nil F_flush.
  intros Hinv.
  destruct (completed_futures_return w (schedule w) (query_1 c) (anthropic_key c)
              unique_raw_leads) as (rs & Hrs & _).
  assert (Hinv0 : (F (trace (with_trace s [Progress enriching 0 None]))
                   ++ G (batch_buffer (with_trace s [Progress enriching 0 None])))%list
                  = G (enriched_leads (with_trace s [Progress enriching 0 None]))).
  { cbn [with_trace trace batch_buffer enriched_leads].
    now rewrite F_app, F_progress, app_nil_r. }
  destruct (pool_loop_output w (force_json c) false F G F_app F_progress G_app G_nil F_flush
              (zlen unique_raw_leads) rs _ Hinv0) as (s1 & E1 & Hinv1).
  unfold enrich_stage. rewrite se_bind_run.
  change (progress_update enriching 0 None s)
    with (Ret tt, with_trace s [Progress enriching 0 None]).
  cbn beta iota zeta. rewrite Hrs, se_bind_run, E1, se_bind_run. unfold se_get.
  destruct (batch_buffer s1) as [|r0 rest] eqn:Hbb.
  - exists s1. split; [reflexivity |]. now rewrite G_nil, app_nil_r in Hinv1.
  - rewrite <- Hbb in *.
    pose proof (F_flush (batch_buffer s1) s1) as Hf.
    destruct (save_batch_frame w (force_json c) false (batch_buffer s1) s1)
      as (s2 & added & E2 & _ & _ & Hel2 & _).
    rewrite E2 in Hf. cbn [snd] in Hf.
    exists s2. split; [exact E2 |]. now rewrite Hf, Hel2.
Qed.

Lemma run_output :
  match run_gmaps_pipeline w c with
  | (Ret res, st) => F (trace st) = G res
  | (Raise _, _) => True
  end.
Proof using Hload F_app F_nil F_progress G_app G_nil F_flush.
  unfold run_gmaps_pipeline, run_body, select_leads. rewrite !se_bind_run.
  destruct (scrape_stage w c initial_state) as [[raw|e] s1] eqn:Hscrape; [| exact I].
  destruct (scrape_stage_events w c initial_state _ _ Hscrape) as (evs & -> & Hevs).
  rewrite se_bind_run, Hload.
  rewrite se_bind_run. unfold se_get at 1, mret at 1, SE_ret at 1.
  assert (Hinv : (F (trace (with_trace initial_state evs))
                  ++ G (batch_buffer (with_trace initial_state evs)))%list
                 = G (enriched_leads (with_trace initial_state evs))).
  { cbn [with_trace initial_state trace batch_buffer enriched_leads app].
    now rewrite (F_progress_events F F_app F_nil F_progress evs Hevs), G_nil. }
  destruct (enrich_stage_output
              (unique_raw_leads_of c (existing_ids (with_trace initial_state evs)) raw)
              _ Hinv) as (s' & E & Hout).
  rewrite se_bind_run, E. p_unfold_core. p_step.
  now rewrite F_app, F_progress, app_nil_r.
Qed.

End FileOutput.

Lemma csv_rows_app (t1 t2 : list effect) :
  csv_rows (t1 ++ t2) = (csv_rows t1 ++ csv_rows t2)%list.
Proof. unfold csv_rows. now rewrite omap_app, concat_app. Qed.

Lemma json_records_app (t1 t2 : list effect) :
  json_records (t1 ++ t2) = (json_records t1 ++ json_records t2)%list.
Proof. unfold json_records. now rewrite omap_app, concat_app. Qed.

(** In flat-file mode, when no write fails, the rows written to the CSV
    files over the whole run are the rows of the returned records, each
    once, in the order of the result. *)
Theorem csv_output_is_result (w : world) (c : config)
    (Hmode : file_mode c = true) (Hcsv : force_json c = false)
    (Hok : forall k, io_fault w k = None) :
  match run_gmaps_pipeline w c with
  | (Ret res, st) => csv_rows (trace st) = map row_of res
  | (Raise _, _) => True
  end.
Proof.
  apply (run_output w c csv_rows (map row_of)
           (fun s => load_existing_file_mode w c s Hmode) csv_rows_app eq_refl);
    [reflexivity | intros; apply map_app | reflexivity |].
  intros batch s. rewrite Hcsv. destruct batch as [|l rest] eqn:Hb.
  - rewrite save_batch_empty. cbn [snd trace]. now rewrite csv_rows_app.
  - rewrite <- Hb. rewrite save_batch_csv_run by (subst; discriminate).
    cbn [snd trace]. rewrite csv_rows_app, Hok. cbn. now rewrite app_nil_r.
Qed.

Lemma csv_output_is_result_witness :
  match run_gmaps_pipeline world_twelve config_twelve with
  | (Ret res, st) => csv_rows (trace st) = map row_of res
  | (Raise _, _) => True
  end.
Proof.
  exact (csv_output_is_result world_twelve config_twelve eq_refl eq_refl
           (fun k => eq_refl)).
Defined.

(** In JSON mode, the mode of the hosted deployment, when no write fails
    the records written to the JSON files over the whole run are the
    returned records, each once, in the order of the result. *)
Theorem json_output_is_result (w : world) (c : config)
    (Hjson : force_json c = true) (Hok : forall k, io_fault w k = None) :
  match run_gmaps_pipeline w c with
  | (Ret res, st) => json_records (trace st) = res
  | (Raise _, _) => True
  end.
Proof.
  assert (Hmode : file_mode c = true).
  { unfold file_mode. rewrite Hjson. now rewrite andb_false_r. }
  pose proof (run_output w c json_records (fun x => x)
                (fun s => load_existing_file_mode w c s Hmode) json_records_app eq_refl) as H.
  apply H; [reflexivity | reflexivity | reflexivity |].
  intros batch s. rewrite Hjson. destruct batch as [|l rest] eqn:Hb.
  - rewrite save_batch_empty. cbn [snd trace]. now rewrite json_records_app.
  - rewrite <- Hb. rewrite save_batch_json_run by (subst; discriminate).
    cbn [snd trace]. rewrite json_records_app, Hok. cbn. now rewrite app_nil_r.
Qed.

Lemma json_output_is_result_witness :
  match run_gmaps_pipeline world_twelve config_json with
  | (Ret res, st) => json_records (trace st) = res
  | (Raise _, _) => True
  end.
Proof.
  exact (json_output_is_result world_twelve config_json eq_refl (fun k => eq_refl)).
Defined.

Lemma load_existing_sheet_unavailable (w : world) (c : config) (s : pstate) :
  setup_sheet w (sheet_url c) = None -> load_existing w c s = (Ret false, s).
Proof.
  intros Hsheet. unfold load_existing. rewrite Hsheet.
  destruct (_ && _ && _); reflexivity.
Qed.

(** When the worksheet cannot be set up (no credentials file, or the
    spreadsheet does not open) and JSON is not forced, the run goes on
    as in flat-file mode: nothing is appended to a sheet and, when no
    write fails, the rows written to the CSV files are the rows of the
    returned records, each once, in the order of the result. *)
Theorem unavailable_sheet_falls_back_to_csv (w : world) (c : config)
    (Hsheet : setup_sheet w (sheet_url c) = None) (Hcsv : force_json c = false)
    (Hok : forall k, io_fault w k = None) :
  match run_gmaps_pipeline w c with
  | (Ret res, st) => csv_rows (trace st) = map row_of res /\ sheet_rows (trace st) = []
  | (Raise _, _) => True
  end.
Proof.
  pose proof (run_output w c csv_rows (map row_of)
                (fun s => load_existing_sheet_unavailable w c s Hsheet) csv_rows_app eq_refl)
    as Hcsv_out.
  pose proof (run_output w c sheet_rows (fun _ => [])
                (fun s => load_existing_sheet_unavailable w c s Hsheet) sheet_rows_app eq_refl)
    as Hsheet_out.
  assert (Hflush : forall batch s,
             trace (snd (save_batch w (force_json c) false batch s))
             = (trace s
                ++ match batch with
                   | [] => [SaveBatch batch]
                   | _ => [ SaveBatch batch;
                            WriteCsv ("gmaps_outreach_" ++ clock w (io_count s) ++ ".csv")
                                     (map row_of batch) None;
                            Print (WroteFile (List.length batch)
                                     ("gmaps_outreach_" ++ clock w (io_count s) ++ ".csv"));
                            Print (SavedBatchCsv (List.length batch)) ]
                   end)%list).
  { intros batch s. rewrite Hcsv. destruct batch as [|l rest] eqn:Hb.
    - now rewrite save_batch_empty.
    - rewrite <- Hb. rewrite save_batch_csv_run by (subst; discriminate).
      cbn [snd trace]. rewrite Hok. now subst. }
  destruct (run_gmaps_pipeline w c) as [[res|e] st]; [| exact I]. split.
  - apply Hcsv_out; [reflexivity | intros; apply map_app | reflexivity |].
    intros batch s. rewrite Hflush, csv_rows_app. destruct batch; cbn; [reflexivity |].
    now rewrite app_nil_r.
  - apply Hsheet_out; [reflexivity | reflexivity | reflexivity |].
    intros batch s. rewrite Hflush, sheet_rows_app. now destruct batch.
Qed.

Lemma unavailable_sheet_falls_back_to_csv_witness :
  match run_gmaps_pipeline world_no_credentials config_sheet with
  | (Ret res, st) => csv_rows (trace st) = map row_of res /\ sheet_rows (trace st) = []
  | (Raise _, _) => True
  end.
Proof.
  exact (unavailable_sheet_falls_back_to_csv world_no_credentials config_sheet eq_refl eq_refl
           (fun k => eq_refl)).
Defined.

(** ** The extraction collaborator *)




(** The record of a lead whose site cannot be fetched. *)
Lemma process_lead_on_empty_result (w : world) (lead : raw_lead) (query : string)
    (key : option string) :
  text_truthy (raw_website lead) = true ->
  extract_contacts w (raw_website lead) (raw_name lead) key = Ret (PyDict []) ->
  process_lead w lead query key = Ret (base_record lead query ++ empty_enrichment)%list.
Proof.
  intros Hsite Hdata. unfold process_lead, process_lead_run. rewrite Hsite.
  w_unfold. w_step. rewrite Hdata. w_step. reflexivity.
Qed.

(** With a credential at hand, a lead whose web site cannot be fetched
    keeps all its enrichment fields, each with an empty value; the model
    is not asked. *)
Theorem unreachable_site_gives_empty_fields (w : world) (s : site) (lead : raw_lead)
    (query : string) (key : option string) (url : string)
    (Hurl : raw_website lead = Some url)
    (Hsite : url <> "")
    (Hkey : text_truthy (text_or key (getenv w "ANTHROPIC_API_KEY")) = true)
    (Hdown : is_raise (http_fetch s url) = true) :
  process_lead (world_with_site w s) lead query key
  = Ret (base_record lead query ++ empty_enrichment)%list.
Proof.
  apply process_lead_on_empty_result.
  - rewrite Hurl. cbn. destruct url; [congruence | reflexivity].
  - unfold extract_contacts. cbn [getenv world_with_site site_extract]. rewrite Hkey.
    cbn [negb]. rewrite Hurl. unfold extract_site, fetch_page.
    destruct (http_fetch s url); [discriminate | reflexivity].
Qed.

Lemma unreachable_site_gives_empty_fields_witness :
  process_lead (world_with_site world_quiet site_down) lead_acme "plumbers in Austin, TX" None
  = Ret (base_record lead_acme "plumbers in Austin, TX" ++ empty_enrichment)%list.
Proof.
  apply (unreachable_site_gives_empty_fields world_quiet site_down lead_acme
           "plumbers in Austin, TX" None "http://acme.com");
    [reflexivity | discriminate | reflexivity | reflexivity].
Defined.

(** ** The command line *)

Lemma filter_all {A} (f : A -> bool) (l : list A) :
  (forall x, f x = true) -> List.filter f l = l.
Proof.
  intros Hf. induction l as [|x l IH]; [reflexivity |]. cbn. now rewrite Hf, IH.
Qed.

(** The command line has no option for the credentials: when the
    environment holds no [APIFY_API_TOKEN], every invocation that starts
    the pipeline ends with the [ValueError] of the search, after the first
    progress event and before anything is written. *)
Theorem cli_needs_token_in_environment (w : world) (a : args)
    (Henv : text_truthy (getenv w "APIFY_API_TOKEN") = false) :
  match main w a with
  | Some (r, st) =>
      r = Raise (ValueError "Apify token not provided and APIFY_API_TOKEN not found in environment variables.")
      /\ progress_events (trace st) = [(scraping, 0)]
      /\ write_attempts (trace st) = []
  | None => True
  end.
Proof.
  assert (Hrun : forall c, apify_token c = None ->
            run_gmaps_pipeline w c
            = (Raise (ValueError "Apify token not provided and APIFY_API_TOKEN not found in environment variables."),
               with_trace initial_state [Progress scraping 0 None])).
  { intros c Hc. unfold run_gmaps_pipeline, run_body, select_leads.
    rewrite !se_bind_run, scrape_stage_run. unfold search, scrape_google_maps.
    rewrite Hc. unfold text_or. cbn [text_truthy of_text truthy]. rewrite Henv.
    reflexivity. }
  unfold main.
  destruct (text_truthy (args_search a) && negb (text_truthy (args_niche a))).
  - rewrite Hrun by reflexivity. repeat split.
  - destruct (text_truthy (args_niche a) && text_truthy (args_location a)); [| exact I].
    rewrite Hrun by reflexivity. repeat split.
Qed.

Lemma cli_needs_token_in_environment_witness :
  match main world_no_apify_token args_legacy with
  | Some (r, st) =>
      r = Raise (ValueError "Apify token not provided and APIFY_API_TOKEN not found in environment variables.")
      /\ progress_events (trace st) = [(scraping, 0)]
      /\ write_attempts (trace st) = []
  | None => True
  end.
Proof.
  apply (cli_needs_token_in_environment world_no_apify_token args_legacy). reflexivity.
Defined.

(** In legacy mode ([--search] without [--niche]) and without a
    spreadsheet, the query that is searched and recorded is the search
    text followed by [" in "], the location bias is empty, and every one
    of the first [limit] businesses found is enriched and returned: no
    state filter and no second search, even with [--increase-radius]. *)
Theorem legacy_mode_run (w : world) (a : args) (q : string) (raw_leads : list raw_lead)
    (Hsearch : args_search a = Some q)
    (Hq : q <> "")
    (Hniche : text_truthy (args_niche a) = false)
    (Hsheet : args_sheet_url a = None)
    (Htoken : text_truthy (getenv w "APIFY_API_TOKEN") = true)
    (Hfound : apify_run w (q ++ " in ") (args_limit a) (Some "") = Ret raw_leads) :
  exists res st,
    main w a = Some (Ret res, st)
    /\ as_completed (schedule w)
         (map (fun lead => process_lead w lead (q ++ " in ") None)
              (py_slice_to raw_leads (args_limit a)))
       = map Ret res
    /\ List.length res = List.length (py_slice_to raw_leads (args_limit a)).
Proof.
  assert (Hqt : text_truthy (Some q) = true).
  { cbn. destruct q; [congruence | reflexivity]. }
  unfold main. rewrite Hsearch, Hqt, Hniche, Hsheet. cbn [andb negb text_str].
  pose proof (run_gmaps_pipeline_run w
                (Config q "" (args_limit a) false None (args_csv a) (args_json a) None None))
    as Hrun.
  assert (Hsel : select_leads w
                   (Config q "" (args_limit a) false None (args_csv a) (args_json a) None None)
                   initial_state
                 = (Ret (false, py_slice_to raw_leads (args_limit a)),
                    with_trace initial_state
                      [ Progress scraping 0 None;
                        Progress scraping 50 (Some (zlen raw_leads));
                        Progress scraping 100 (Some (zlen raw_leads)) ])).
  { unfold select_leads. rewrite se_bind_run, scrape_stage_run.
    unfold search, scrape_google_maps, query_1.
    cbn [apify_token location limit niche increase_radius andb].
    unfold text_or. cbn [text_truthy of_text truthy]. fold (text_truthy (getenv w "APIFY_API_TOKEN")).
    rewrite Htoken. cbn [negb]. change (" in " ++ "") with " in ". rewrite Hfound.
    rewrite se_bind_run, load_existing_file_mode by reflexivity.
    rewrite se_bind_run. unfold se_get, mret, SE_ret. do 3 f_equal.
    unfold unique_raw_leads_of. rewrite filter_leads_fst. apply filter_all.
    intros l. cbn [with_trace existing_ids initial_state].
    rewrite bool_decide_eq_false_2 by apply not_elem_of_empty. reflexivity. }
  rewrite Hsel in Hrun. unfold query_1 in Hrun. cbn [niche location anthropic_key] in Hrun.
  change (" in " ++ "") with " in " in Hrun. destruct Hrun as (st & rs & Erun & Hdone & Hlen & _).
  exists rs, st. split; [now rewrite Erun |]. split; [exact Hdone | exact Hlen].
Qed.

Lemma legacy_mode_run_witness :
  exists res st,
    main world_twelve args_legacy = Some (Ret res, st)
    /\ as_completed (schedule world_twelve)
         (map (fun lead => process_lead world_twelve lead ("plumbers Austin" ++ " in ") None)
              (py_slice_to twelve_leads (args_limit args_legacy)))
       = map Ret res
    /\ List.length res = List.length (py_slice_to twelve_leads (args_limit args_legacy)).
Proof.
  apply (legacy_mode_run world_twelve args_legacy "plumbers Austin" twelve_leads);
    [reflexivity | discriminate | reflexivity | reflexivity | reflexivity | reflexivity].
Defined.

(** ** The hosted deployment *)

Lemma filter_none_forallb {A} (p : A -> bool) (l : list A) :
  match List.filter (fun x => negb (p x)) l with [] => false | _ => true end
  = negb (forallb p l).
Proof.
  induction l as [|x l IH]; [reflexivity |]. cbn. destruct (p x); cbn; [exact IH | reflexivity].
Qed.

Lemma dict_item_truthy (d : dict) (k : string) :
  truthy (dict_get_default d k PyNone) = true ->
  dict_item d k = Ret (dict_get_default d k PyNone).
Proof.
  unfold dict_item, dict_get_default. destruct (dict_get d k); [reflexivity | discriminate].
Qed.

(** The webhook spawns the pipeline exactly when each of the ten required
    fields has a truthy value: then it spawns once, with the values of
    the body, 50 for a [limit] that is not given and [True] for an
    [increase_radius] that is not given, and answers "accepted" unless
    the spawn itself fails.  Otherwise nothing is spawned and the answer
    names the fields that are absent or falsy, in the order of the
    list. *)
Theorem webhook_spawns_iff_complete (h : host) (data : dict) :
  let '(r, calls) := webhook h data [] in
  if forallb (fun f => truthy (dict_get_default data f PyNone)) required_fields then
    exists call,
      calls = [call]
      /\ call = SpawnCall (dict_get_default data "job_id" PyNone)
                          (dict_get_default data "user_id" PyNone)
                          (dict_get_default data "niche" PyNone)
                          (dict_get_default data "location" PyNone)
                          (dict_get_default data "limit" (PyInt 50))
                          (dict_get_default data "increase_radius" (PyBool true))
                          (dict_get_default data "apify_token" PyNone)
                          (dict_get_default data "anthropic_key" PyNone)
                          (dict_get_default data "callback_url" PyNone)
                          (dict_get_default data "callback_secret" PyNone)
                          (dict_get_default data "supabase_url" PyNone)
                          (dict_get_default data "supabase_key" PyNone)
      /\ r = match spawn h call with
             | Ret _ =>
                 Ret [ ("status", PyStr "accepted");
                       ("job_id", dict_get_default data "job_id" PyNone);
                       ("message", PyStr "Pipeline started in background") ]
             | Raise e => Ret (error_response (exn_str h e))
             end
  else
    calls = []
    /\ r = Ret (error_response
                  ("Missing required fields: "
                   ++ repr_names (List.filter
                                    (fun f => negb (truthy (dict_get_default data f PyNone)))
                                    required_fields))).
Proof.
  unfold webhook. cbv zeta. rewrite filter_none_forallb.
  destruct (forallb _ required_fields) eqn:Hc; cbn [negb]; [| split; reflexivity].
  cbn [forallb required_fields] in Hc.
  repeat match type of Hc with
         | _ && _ = true => let H := fresh "Hf" in apply andb_prop in Hc; destruct Hc as [H Hc]
         end.
  repeat match goal with
         | H : truthy (dict_get_default data ?k PyNone) = true |- _ =>
             rewrite !(dict_item_truthy data k H); clear H
         end.
  unfold try_except, se_lift, se_modify, mbind, mret, SE_bind, SE_ret.
  cbn beta iota. cbn [app].
  destruct (spawn h _) as [[]|e] eqn:Hsp.
  - eexists. split; [reflexivity |]. split; [reflexivity |]. now rewrite Hsp.
  - eexists. split; [reflexivity |]. split; [reflexivity |]. now rewrite Hsp.
Qed.


